(** * Ecommerce backend: product and order handlers of [BackendEcommerce.py]

    A shallow embedding of the four request handlers ([create_product],
    [list_products], [create_order], [get_user_orders]) together with the
    parts of their collaborators that the handlers rely on:

    - the two MongoDB collections are lists of documents in natural
      (insertion) order; [find], [count_documents], [find_one] and
      [insert_one] are interpreted on those lists;
    - [bson.ObjectId] applied to a [str] is the 24-character hexadecimal
      parser of the driver (built on [bytes.fromhex]);
    - Python exceptions are values of [exn]; the [try]/[except] clauses of the
      handlers are the functions [except_HTTPException_raise] and
      [except_Exception];
    - Python [float] arithmetic and the regular-expression engine of the
      store are the fields of the class [Runtime]: no law about them is
      assumed.

    The handlers are modelled from the point where [ensure_db_connection]
    has returned, that is on a reachable store. *)

From Stdlib Require Import ZArith List String Ascii Bool Lia PeanoNat.
From Stdlib Require Import DecimalString.
Import ListNotations.

Local Open Scope string_scope.
Local Open Scope Z_scope.
Local Open Scope list_scope.

(** ** Python values used by the handlers *)

(** [str(n)] for a Python [int]. *)
Definition str_int (n : Z) : string := NilZero.string_of_int (Z.to_int n).

(** Truthiness of an [Optional[str]]: [None] and the empty string are falsy. *)
Definition truthy (s : option string) : option string :=
  match s with
  | Some EmptyString => None
  | other => other
  end.

(** An [int] that the store can hold: BSON integers have at most 8 bytes,
    and the driver raises [OverflowError] on any other. *)
Definition fits_int64 (n : Z) : bool := (- 2 ^ 63 <=? n) && (n <? 2 ^ 63).

(** [datetime.utcnow()] is an input of the handlers; its representation plays
    no role. *)
Definition datetime : Type := Z.

(** ** [bson.ObjectId] *)

(** An ObjectId holds its [binary] representation; equality of ObjectIds is
    equality of these bytes. *)
Record oid : Type := mk_oid { binary : string }.

Definition oid_eqb (a b : oid) : bool := String.eqb (binary a) (binary b).

(** [Py_ISSPACE] on ASCII. *)
Definition is_space (c : ascii) : bool :=
  let n := N_of_ascii c in
  (N.leb 9 n && N.leb n 13) || N.eqb n 32.

(** Value of a hexadecimal digit, either case. *)
Definition hexval (c : ascii) : option N :=
  let n := N_of_ascii c in
  if N.leb 48 n && N.leb n 57 then Some (n - 48)%N
  else if N.leb 97 n && N.leb n 102 then Some (n - 87)%N
  else if N.leb 65 n && N.leb n 70 then Some (n - 55)%N
  else None.

(** [bytes.fromhex]: two hexadecimal digits per byte, ASCII whitespace
    being skipped in front of a byte; [None] stands for [ValueError]. *)
Fixpoint fromhex (s : string) : option string :=
  match s with
  | EmptyString => Some EmptyString
  | String c rest =>
      if is_space c then fromhex rest
      else
        match hexval c, rest with
        | Some top, String d rest' =>
            match hexval d, fromhex rest' with
            | Some bot, Some bytes =>
                Some (String (ascii_of_N (16 * top + bot)) bytes)
            | _, _ => None
            end
        | _, _ => None
        end
  end.

(** Lower-case hexadecimal digit of a value below 16. *)
Definition hexdigit (n : N) : ascii :=
  if N.ltb n 10 then ascii_of_N (48 + n) else ascii_of_N (87 + n).

(** [binascii.hexlify]. *)
Fixpoint hexlify (bytes : string) : string :=
  match bytes with
  | EmptyString => EmptyString
  | String b rest =>
      let n := N_of_ascii b in
      String (hexdigit (n / 16)) (String (hexdigit (n mod 16)) (hexlify rest))
  end.

(** [str(oid)]: the 24 lower-case hexadecimal digits of a 12-byte id. *)
Definition str_oid (o : oid) : string := hexlify (binary o).

(** ** Exceptions *)

(** The exceptions that the modelled code can raise.  [detail] is the
    [detail] argument of [HTTPException]: a literal, or [str(e)] of the
    exception being translated. *)
Inductive exn : Type :=
| InvalidId (given : string)
| OperationFailure (pattern : string)
| RequestValidationError
| OverflowError
| HTTPException (status_code : Z) (detail : detail_t)
with detail_t : Type :=
| Text (s : string)
| Str (e : exn).

Inductive result (A : Type) : Type :=
| Ok (a : A)
| Raise (e : exn).
Arguments Ok {A} a.
Arguments Raise {A} e.

(** [ObjectId(s)] for [s : str]: the string must have 24 characters and be
    accepted by [bytes.fromhex]; otherwise [InvalidId] is raised. *)
Definition ObjectId (s : string) : result oid :=
  if Nat.eqb (String.length s) 24 then
    match fromhex s with
    | Some bytes => Ok (mk_oid bytes)
    | None => Raise (InvalidId s)
    end
  else Raise (InvalidId s).

(** [[f(x) for x in xs]] where [f] may raise: elements are evaluated from
    left to right and the first exception ends the comprehension. *)
Fixpoint comprehension {A B : Type} (f : A -> result B) (xs : list A)
  : result (list B) :=
  match xs with
  | [] => Ok []
  | x :: rest =>
      match f x with
      | Raise e => Raise e
      | Ok y =>
          match comprehension f rest with
          | Raise e => Raise e
          | Ok ys => Ok (y :: ys)
          end
      end
  end.

(** The clause [except HTTPException: raise] followed by
    [except Exception as e: raise HTTPException(status_code=500, detail=str(e))]. *)
Definition except_HTTPException_raise {A : Type} (r : result A) : result A :=
  match r with
  | Ok a => Ok a
  | Raise (HTTPException c d) => Raise (HTTPException c d)
  | Raise e => Raise (HTTPException 500 (Str e))
  end.

(** The single clause
    [except Exception as e: raise HTTPException(status_code=500, detail=str(e))]. *)
Definition except_Exception {A : Type} (r : result A) : result A :=
  match r with
  | Ok a => Ok a
  | Raise e => Raise (HTTPException 500 (Str e))
  end.

(** ** FastAPI query parameters *)

(** [Query(default, ge=..., le=...)] on an [int] parameter. *)
Record QueryInt : Type := Query { default : Z; ge : option Z; le : option Z }.

Definition bound_holds (cmp : Z -> Z -> bool) (bound : option Z) (v : Z) : bool :=
  match bound with
  | None => true
  | Some b => cmp b v
  end.

(** What the handler receives for a declared parameter: the default when the
    parameter is omitted, the supplied value when it meets the declared
    bounds, and otherwise no call at all: the framework raises
    [RequestValidationError] and answers 422. *)
Definition validate_query (q : QueryInt) (supplied : option Z) : result Z :=
  match supplied with
  | None => Ok (default q)
  | Some v =>
      if bound_holds Z.leb (ge q) v && bound_holds Z.geb (le q) v
      then Ok v
      else Raise RequestValidationError
  end.

(** [limit: int = Query(10, ge=1, le=100)] and [offset: int = Query(0, ge=0)],
    declared identically by [list_products] and [get_user_orders]. *)
Definition limit_query : QueryInt := Query 10 (Some 1) (Some 100).
Definition offset_query : QueryInt := Query 0 (Some 0) None.

(** ** Pattern matching of the store on literal patterns *)

Definition lower (c : ascii) : ascii :=
  let n := N_of_ascii c in
  if N.leb 65 n && N.leb n 90 then ascii_of_N (n + 32) else c.

Definition char_eqb (caseless : bool) (a b : ascii) : bool :=
  if caseless then Ascii.eqb (lower a) (lower b) else Ascii.eqb a b.

Fixpoint starts_with (caseless : bool) (p s : string) : bool :=
  match p, s with
  | EmptyString, _ => true
  | String _ _, EmptyString => false
  | String a p', String b s' => char_eqb caseless a b && starts_with caseless p' s'
  end.

(** An unanchored search of [p] in [s]. *)
Fixpoint search (caseless : bool) (p s : string) : bool :=
  starts_with caseless p s ||
  match s with
  | EmptyString => false
  | String _ s' => search caseless p s'
  end.

Definition is_alnum (c : ascii) : bool :=
  let n := N_of_ascii c in
  (N.leb 48 n && N.leb n 57) || (N.leb 65 n && N.leb n 90)
  || (N.leb 97 n && N.leb n 122).

Fixpoint all_chars (f : ascii -> bool) (s : string) : bool :=
  match s with
  | EmptyString => true
  | String c s' => f c && all_chars f s'
  end.

Fixpoint has_char (c : ascii) (s : string) : bool :=
  match s with
  | EmptyString => false
  | String d s' => Ascii.eqb c d || has_char c s'
  end.

(** ** Data model *)

(** What the handlers take from the Python runtime and from the store:
    [float] with [0.0], [x + y] and [x * n] for an [int] [n], and the
    regular-expression engine of the store on patterns that contain
    metacharacters, where [pcre caseless pattern] is the compiled matcher, or
    [None] when the pattern is rejected. *)
Class Runtime : Type :=
  { float : Type;
    float_zero : float;
    float_add : float -> float -> float;
    float_mul_int : float -> Z -> float;
    pcre : bool -> string -> option (string -> bool) }.

Section Backend.

Context {runtime : Runtime}.

(** The request and response models.  Field names carry a prefix where two
    classes of the source use the same name. *)
Record SizeInfo : Type := { size : string; quantity : Z }.

Record ProductCreate : Type :=
  { pc_name : string; pc_price : float; pc_sizes : list SizeInfo }.

(** The listing entry [{"id", "name", "price"}]. *)
Record ProductResponse : Type :=
  { pr_id : string; pr_name : string; pr_price : float }.

Record PaginationInfo : Type :=
  { next : option string; limit : Z; previous : option Z }.

Record ProductsListResponse : Type :=
  { pl_data : list ProductResponse; pl_page : PaginationInfo }.

Record OrderItem : Type := { productId : string; qty : Z }.

Record OrderCreate : Type := { userId : string; items : list OrderItem }.

(** [{"id": str(result.inserted_id)}], returned by both create handlers. *)
Record OrderResponse : Type := { id : string }.

(** The dict [{"name", "id"}] under ["productDetails"]. *)
Record ProductDetails : Type := { pd_name : string; pd_id : string }.

Record OrderDetails : Type :=
  { productDetails : ProductDetails; od_qty : Z }.

Record OrderData : Type :=
  { od_id : string; od_items : list OrderDetails; total : float }.

Record OrdersListResponse : Type :=
  { ol_data : list OrderData; ol_page : PaginationInfo }.

(** Stored documents: [product_doc] and [order_doc] of the handlers with the
    ["_id"] that [insert_one] adds. *)
Record product_doc : Type :=
  { p_id : oid; p_name : string; p_price : float; p_sizes : list SizeInfo;
    p_created_at : datetime }.

Record order_doc : Type :=
  { o_id : oid; o_userId : string; o_items : list OrderItem;
    o_created_at : datetime; o_status : string }.

Record Database : Type :=
  { products_collection : list product_doc;
    orders_collection : list order_doc }.

(** ** Handlers run in a state and exception monad over the database *)

Definition M (A : Type) : Type := Database -> result A * Database.

Definition ret {A : Type} (a : A) : M A := fun db => (Ok a, db).

Definition raise {A : Type} (e : exn) : M A := fun db => (Raise e, db).

Definition bind {A B : Type} (m : M A) (k : A -> M B) : M B :=
  fun db =>
    match m db with
    | (Ok a, db') => k a db'
    | (Raise e, db') => (Raise e, db')
    end.

Definition lift {A : Type} (r : result A) : M A := fun db => (r, db).

(** [try: body except ...] with the given translation of exceptions. *)
Definition try_except {A : Type} (body : M A)
  (handler : result A -> result A) : M A :=
  fun db => let (r, db') := body db in (handler r, db').

Notation "x <- m ;; k" := (bind m (fun x => k))
  (at level 100, m at next level, right associativity).

(** [for x in xs: s = body(s, x)]. *)
Fixpoint for_each {A S : Type} (xs : list A) (body : S -> A -> M S) (s : S)
  : M S :=
  match xs with
  | [] => ret s
  | x :: rest => s' <- body s x ;; for_each rest body s'
  end.

(** ** The store *)

(** [{"$regex": pattern, "$options": options}] on a string field.  A pattern
    of letters and digits only is a literal: it is searched in the subject,
    without regard to case when the options contain [i]. *)
Definition mongo_regex (pattern options : string) : option (string -> bool) :=
  let caseless := has_char "i"%char options in
  if all_chars is_alnum pattern then Some (search caseless pattern)
  else pcre caseless pattern.

(** The keys that the handlers put in a filter on products. *)
Inductive product_condition : Type :=
| name_regex (pattern options : string)
| sizes_size (s : string)
| id_in (ids : list oid).

(** [{"sizes.size": s}]: some element of the array [sizes] has [size] equal
    to [s]. *)
Definition has_size (s : string) (d : product_doc) : bool :=
  existsb (fun e => String.eqb (size e) s) (p_sizes d).

Definition condition_matcher (c : product_condition)
  : result (product_doc -> bool) :=
  match c with
  | name_regex pattern options =>
      match mongo_regex pattern options with
      | Some m => Ok (fun d => m (p_name d))
      | None => Raise (OperationFailure pattern)
      end
  | sizes_size s => Ok (has_size s)
  | id_in ids => Ok (fun d => existsb (oid_eqb (p_id d)) ids)
  end.

(** A filter is the conjunction of its keys. *)
Fixpoint filter_matcher (q : list product_condition)
  : result (product_doc -> bool) :=
  match q with
  | [] => Ok (fun _ => true)
  | c :: rest =>
      match condition_matcher c, filter_matcher rest with
      | Ok m, Ok ms => Ok (fun d => m d && ms d)
      | Raise e, _ => Raise e
      | _, Raise e => Raise e
      end
  end.

Definition products_find (q : list product_condition) : M (list product_doc) :=
  fun db =>
    match filter_matcher q with
    | Ok m => (Ok (filter m (products_collection db)), db)
    | Raise e => (Raise e, db)
    end.

Definition products_count_documents (q : list product_condition) : M Z :=
  docs <- products_find q ;; ret (Z.of_nat (List.length docs)).

(** [find_one({"_id": product_id})]: the first match, or [None]. *)
Definition products_find_one (product_id : oid) : M (option product_doc) :=
  fun db =>
    (Ok (find (fun d => oid_eqb (p_id d) product_id) (products_collection db)),
     db).

(** [{"userId": user_id}]. *)
Definition orders_find (user_id : string) : M (list order_doc) :=
  fun db =>
    (Ok (filter (fun o => String.eqb (o_userId o) user_id)
           (orders_collection db)), db).

Definition orders_count_documents (user_id : string) : M Z :=
  docs <- orders_find user_id ;; ret (Z.of_nat (List.length docs)).

(** [cursor.skip(n)] and [cursor.limit(n)]; a limit of 0 means no limit. *)
Definition skip {A : Type} (n : Z) (cursor : list A) : list A :=
  skipn (Z.to_nat n) cursor.

Definition limit_to {A : Type} (n : Z) (cursor : list A) : list A :=
  if n =? 0 then cursor else firstn (Z.to_nat n) cursor.

(** [insert_one]: the document is encoded, which raises [OverflowError]
    when one of its integers does not fit 8 bytes, and then appended with
    the ObjectId [new_id] that the driver generates for it; that id is the
    [inserted_id]. *)
Definition products_insert_one (new_id : oid) (name : string) (price : float)
  (sizes : list SizeInfo) (created_at : datetime) : M oid :=
  fun db =>
    if forallb (fun s => fits_int64 (quantity s)) sizes then
      (Ok new_id,
       {| products_collection :=
            products_collection db
            ++ [ {| p_id := new_id; p_name := name; p_price := price;
                    p_sizes := sizes; p_created_at := created_at |} ];
          orders_collection := orders_collection db |})
    else (Raise OverflowError, db).

Definition orders_insert_one (new_id : oid) (user_id : string)
  (order_items : list OrderItem) (created_at : datetime) (status : string)
  : M oid :=
  fun db =>
    if forallb (fun item => fits_int64 (qty item)) order_items then
      (Ok new_id,
       {| products_collection := products_collection db;
          orders_collection :=
            orders_collection db
            ++ [ {| o_id := new_id; o_userId := user_id;
                    o_items := order_items; o_created_at := created_at;
                    o_status := status |} ] |})
    else (Raise OverflowError, db).

(** ** The handlers *)

(** The pagination block, written out identically at the end of
    [list_products] and of [get_user_orders]. *)
Definition pagination (offset limit total_count : Z) : PaginationInfo :=
  let next_offset :=
    if offset + limit <? total_count then Some (str_int (offset + limit))
    else None in
  let previous_offset :=
    if 0 <? offset then Some (Z.max 0 (offset - limit)) else None in
  {| next := next_offset; limit := limit; previous := previous_offset |}.

(** [POST /products]: the handler from its [try] on, that is once
    [ensure_db_connection()] has returned (for that call see [Connection]
    below, where it answers 503 when the store cannot be reached). *)
Definition create_product (now : datetime) (new_id : oid)
  (product : ProductCreate) : M OrderResponse :=
  try_except
    (let sizes_data :=
       map (fun s => {| size := size s; quantity := quantity s |})
         (pc_sizes product) in
     inserted_id <- products_insert_one new_id (pc_name product)
                      (pc_price product) sizes_data now ;;
     ret {| id := str_oid inserted_id |})
    except_Exception.

(** The dict built for each document of the cursor in [list_products]. *)
Definition product_data (doc : product_doc) : ProductResponse :=
  {| pr_id := str_oid (p_id doc); pr_name := p_name doc;
     pr_price := p_price doc |}.

(** The filter that [list_products] builds from its two optional
    arguments; a [None] or empty argument adds no key. *)
Definition filter_query (name size : option string) : list product_condition :=
  match truthy name with
  | Some n => [name_regex n "i"]
  | None => []
  end ++
  match truthy size with
  | Some s => [sizes_size s]
  | None => []
  end.

(** [GET /products], after validation of the query parameters and once
    [ensure_db_connection()] has returned. *)
Definition list_products (name size : option string) (limit offset : Z)
  : M ProductsListResponse :=
  try_except
    (total_count <- products_count_documents (filter_query name size) ;;
     found <- products_find (filter_query name size) ;;
     let cursor := limit_to limit (skip offset found) in
     let products := map product_data cursor in
     ret {| pl_data := products;
            pl_page := pagination offset limit total_count |})
    except_Exception.

(** [POST /orders], once [ensure_db_connection()] has returned. *)
Definition create_order (now : datetime) (new_id : oid) (order : OrderCreate)
  : M OrderResponse :=
  try_except
    (product_ids <-
       lift (comprehension (fun item => ObjectId (productId item))
               (items order)) ;;
     existing_products <- products_find [id_in product_ids] ;;
     if negb (Nat.eqb (List.length existing_products) (List.length product_ids))
     then raise (HTTPException 400 (Text "One or more products not found"))
     else
       inserted_id <-
         orders_insert_one new_id (userId order)
           (map (fun item => {| productId := productId item; qty := qty item |})
              (items order))
           now "created" ;;
       ret {| id := str_oid inserted_id |})
    except_HTTPException_raise.

(** Body of the inner loop of [get_user_orders]; the state is
    [(order_items, total_amount)]. *)
Definition item_body (state : list OrderDetails * float) (item : OrderItem)
  : M (list OrderDetails * float) :=
  let (order_items, total_amount) := state in
  product_id <- lift (ObjectId (productId item)) ;;
  product <- products_find_one product_id ;;
  match product with
  | Some product =>
      let product_details :=
        {| pd_name := p_name product; pd_id := productId item |} in
      let order_item :=
        {| productDetails := product_details; od_qty := qty item |} in
      ret (order_items ++ [order_item],
           float_add total_amount (float_mul_int (p_price product) (qty item)))
  | None => ret (order_items, total_amount)
  end.

(** Body of the outer loop; the state is [orders_data]. *)
Definition order_body (orders_data : list OrderData) (doc : order_doc)
  : M (list OrderData) :=
  state <- for_each (o_items doc) item_body ([], float_zero) ;;
  let order_data :=
    {| od_id := str_oid (o_id doc); od_items := fst state;
       total := snd state |} in
  ret (orders_data ++ [order_data]).

(** [GET /orders/{user_id}], after validation of the query parameters and
    once [ensure_db_connection()] has returned. *)
Definition get_user_orders (user_id : string) (limit offset : Z)
  : M OrdersListResponse :=
  try_except
    (total_count <- orders_count_documents user_id ;;
     found <- orders_find user_id ;;
     let cursor := limit_to limit (skip offset found) in
     orders_data <- for_each cursor order_body [] ;;
     ret {| ol_data := orders_data;
            ol_page := pagination offset limit total_count |})
    except_Exception.

(** The two listing routes as the framework runs them: the declared query
    parameters are validated, then the handler is called. *)
Definition route_list_products (name size : option string)
  (limit offset : option Z) : M ProductsListResponse :=
  l <- lift (validate_query limit_query limit) ;;
  o <- lift (validate_query offset_query offset) ;;
  list_products name size l o.

Definition route_get_user_orders (user_id : string) (limit offset : option Z)
  : M OrdersListResponse :=
  l <- lift (validate_query limit_query limit) ;;
  o <- lift (validate_query offset_query offset) ;;
  get_user_orders user_id l o.

(** ** Specification-side definitions

    The following definitions do not come from the handlers: they say, in
    the words of the specification, what the handlers are expected to
    return and to store, and what is assumed of the store; they are compared
    with the handlers below. *)

(** The product that a line item refers to in the present store, if any. *)
Definition spec_resolve (db : Database) (item : OrderItem)
  : option product_doc :=
  match ObjectId (productId item) with
  | Ok i => find (fun d => oid_eqb (p_id d) i) (products_collection db)
  | Raise _ => None
  end.

(** The line items that resolve, each with its product. *)
Definition spec_resolvable (db : Database) (its : list OrderItem)
  : list (OrderItem * product_doc) :=
  flat_map (fun item =>
              match spec_resolve db item with
              | Some p => [(item, p)]
              | None => []
              end) its.

(** The sum, from [0.0] and in the order of the items, of current price
    times quantity. *)
Definition spec_total (lines : list (OrderItem * product_doc)) : float :=
  fold_left float_add
    (map (fun l => float_mul_int (p_price (snd l)) (qty (fst l))) lines)
    float_zero.

(** How a resolved line item is shown. *)
Definition spec_order_item (line : OrderItem * product_doc) : OrderDetails :=
  {| productDetails :=
       {| pd_name := p_name (snd line); pd_id := productId (fst line) |};
     od_qty := qty (fst line) |}.

Definition spec_order_data (db : Database) (doc : order_doc) : OrderData :=
  let lines := spec_resolvable db (o_items doc) in
  {| od_id := str_oid (o_id doc);
     od_items := map spec_order_item lines;
     total := spec_total lines |}.

(** The order document that the specification expects [create_order] to
    insert. *)
Definition inserted_order (now : datetime) (new_id : oid) (order : OrderCreate)
  : order_doc :=
  {| o_id := new_id; o_userId := userId order; o_items := items order;
     o_created_at := now; o_status := "created" |}.

(** The products whose id is among [ids], in store order. *)
Definition found_products (db : Database) (ids : list oid) : list product_doc :=
  filter (fun d => existsb (oid_eqb (p_id d)) ids) (products_collection db).

(** Every line item of every stored order carries a well-formed id: what
    [create_order] establishes for the orders it inserts. *)
Definition orders_well_formed (db : Database) : Prop :=
  Forall (fun doc =>
            Forall (fun item => exists i, ObjectId (productId item) = Ok i)
              (o_items doc))
    (orders_collection db).

(** The ["_id"] index of the products collection is unique. *)
Definition unique_product_ids (db : Database) : Prop :=
  NoDup (map p_id (products_collection db)).

(** The documents of a collection that a listing shows: those after the
    first [offset] ones, and no more than [limit]. *)
Definition window {A : Type} (lim off : Z) (docs : list A) : list A :=
  firstn (Z.to_nat lim) (skipn (Z.to_nat off) docs).

(** What it is for a name to contain a text, the case of letters being
    ignored; stated on the characters, apart from the search of the store.
    Two characters are the same letter when they are equal or when one is a
    capital [A]..[Z] and the other the small letter, 32 further. *)
Definition capital (c : ascii) : Prop := (65 <= N_of_ascii c <= 90)%N.

Definition same_letter (a b : ascii) : Prop :=
  a = b
  \/ (capital a /\ N_of_ascii b = (N_of_ascii a + 32)%N)
  \/ (capital b /\ N_of_ascii a = (N_of_ascii b + 32)%N).

Inductive same_letters : string -> string -> Prop :=
| same_letters_nil : same_letters EmptyString EmptyString
| same_letters_cons (a b : ascii) (s t : string) :
    same_letter a b -> same_letters s t ->
    same_letters (String a s) (String b t).

Definition occurs_ignoring_case (text subject : string) : Prop :=
  exists before found after,
    subject = String.append before (String.append found after)
    /\ same_letters text found.

(** The products that a listing is expected to select: those whose name
    contains the name argument, case ignored, and that have a size entry
    with exactly the size argument; an absent or empty argument selects
    every product. *)
Definition spec_name_selects (name : option string) (d : product_doc) : Prop :=
  match truthy name with
  | Some text => occurs_ignoring_case text (p_name d)
  | None => True
  end.

Definition spec_size_selects (wanted : option string) (d : product_doc)
  : Prop :=
  match truthy wanted with
  | Some s => exists e, In e (p_sizes d) /\ size e = s
  | None => True
  end.

(** The name argument is a plain text: letters and digits only. *)
Definition plain_name (name : option string) : Prop :=
  match truthy name with
  | Some text => all_chars is_alnum text = true
  | None => True
  end.

(** Lower-casing of a name, letter by letter. *)
Fixpoint lower_string (s : string) : string :=
  match s with
  | EmptyString => EmptyString
  | String c s' => String (lower c) (lower_string s')
  end.

(** The orders of a user, in store order. *)
Definition orders_of (user_id : string) (db : Database) : list order_doc :=
  filter (fun o => String.eqb (o_userId o) user_id) (orders_collection db).

(** An integer within the 8 bytes of the store. *)
Definition storable (n : Z) : Prop := - 2 ^ 63 <= n < 2 ^ 63.

(** The empty store, and the stores that the two create handlers build from
    it.  The driver generates 12-byte ids, and never one that a stored
    product already has. *)
Definition empty_store : Database :=
  {| products_collection := []; orders_collection := [] |}.

Inductive reachable : Database -> Prop :=
| reachable_empty : reachable empty_store
| reachable_create_product (now : datetime) (new_id : oid)
    (product : ProductCreate) (db : Database) :
    reachable db ->
    String.length (binary new_id) = 12%nat ->
    ~ In new_id (map p_id (products_collection db)) ->
    reachable (snd (create_product now new_id product db))
| reachable_create_order (now : datetime) (new_id : oid)
    (order : OrderCreate) (db : Database) :
    reachable db ->
    reachable (snd (create_order now new_id order db)).

(** The first productId, in the order of the items, that [ObjectId]
    refuses. *)
Fixpoint first_malformed (its : list OrderItem) : option string :=
  match its with
  | [] => None
  | item :: rest =>
      match ObjectId (productId item) with
      | Ok _ => first_malformed rest
      | Raise _ => Some (productId item)
      end
  end.

(** The orders that a listing of [user_id] goes through. *)
Definition page_of (user_id : string) (lim off : Z) (db : Database)
  : list order_doc :=
  limit_to lim (skip off (orders_of user_id db)).

(** Every line item of every stored order refers to a stored product. *)
Definition orders_resolve (db : Database) : Prop :=
  Forall (fun doc =>
            Forall (fun item => spec_resolve db item <> None) (o_items doc))
    (orders_collection db).

(** What a shown order tells of its line items: the ids as they were sent
    and the quantities. *)
Definition shown_lines (shown : OrderData) : list (string * Z) :=
  map (fun d => (pd_id (productDetails d), od_qty d)) (od_items shown).

Definition stored_lines (its : list OrderItem) : list (string * Z) :=
  map (fun item => (productId item, qty item)) its.

(** The products that match the filter built from [name] and [size], in
    store order; none when the store rejects the filter. *)
Definition matching (name size : option string) (db : Database)
  : list product_doc :=
  match filter_matcher (filter_query name size) with
  | Ok m => filter m (products_collection db)
  | Raise _ => []
  end.

End Backend.

(** ** A runtime and stores to compute with *)

(** Prices as whole amounts, and an engine that rejects every pattern that
    is not a literal. *)
Definition amounts : Runtime :=
  {| float := Z; float_zero := 0; float_add := Z.add; float_mul_int := Z.mul;
     pcre := fun _ _ => None |}.

Section Shop.

#[local] Existing Instance amounts.

Definition shirt_id : oid := mk_oid "aaaaaaaaaaaa".
Definition hat_id : oid := mk_oid "bbbbbbbbbbbb".
Definition order_id : oid := mk_oid "oooooooooooo".

(** The hexadecimal forms of [shirt_id] and [hat_id]. *)
Definition shirt_hex : string := "616161616161616161616161".
Definition hat_hex : string := "626262626262626262626262".

(** A shirt in size S only. *)
Definition shirt : product_doc :=
  {| p_id := shirt_id; p_name := "Shirt"; p_price := 1999;
     p_sizes := [ {| size := "S"; quantity := 5 |} ]; p_created_at := 1 |}.

(** A shop that sells the shirt and no hat. *)
Definition shop : Database :=
  {| products_collection := [shirt]; orders_collection := [] |}.

(** The same shop after the price of the shirt has changed. *)
Definition shop_sale : Database :=
  {| products_collection :=
       [ {| p_id := shirt_id; p_name := "Shirt"; p_price := 1500;
            p_sizes := [ {| size := "S"; quantity := 5 |} ];
            p_created_at := 1 |} ];
     orders_collection := [] |}.

Definition order_of (its : list OrderItem) : OrderCreate :=
  {| userId := "u"; items := its |}.

(** The shirt on two lines. *)
Definition shirt_twice : OrderCreate :=
  order_of [ {| productId := shirt_hex; qty := 1 |};
             {| productId := shirt_hex; qty := 2 |} ].

(** Three shirts and two hats. *)
Definition shirts_and_hats : OrderCreate :=
  order_of [ {| productId := shirt_hex; qty := 3 |};
             {| productId := hat_hex; qty := 2 |} ].

(** A hat, and a line whose id is not an ObjectId. *)
Definition hat_and_malformed : OrderCreate :=
  order_of [ {| productId := hat_hex; qty := 1 |};
             {| productId := "bad"; qty := 1 |} ].

Definition malformed_only : OrderCreate :=
  order_of [ {| productId := "xyz"; qty := 1 |} ].

Definition three_shirts : OrderCreate :=
  order_of [ {| productId := shirt_hex; qty := 3 |} ].

(** A store in which an order refers to a product that is not there. *)
Definition stored_order : order_doc :=
  {| o_id := order_id; o_userId := "u"; o_items := items shirts_and_hats;
     o_created_at := 2; o_status := "created" |}.

Definition with_order (db : Database) : Database :=
  {| products_collection := products_collection db;
     orders_collection := [stored_order] |}.

(** The request that puts the shirt in an empty shop, and the shop after
    three shirts have been ordered. *)
Definition shirt_request : ProductCreate :=
  {| pc_name := "Shirt"; pc_price := 1999;
     pc_sizes := [ {| size := "S"; quantity := 5 |} ] |}.

(** More shirts than the store can count, in an order and in a stock. *)
Definition too_many_shirts : OrderCreate :=
  order_of [ {| productId := shirt_hex; qty := 2 ^ 63 |} ].

Definition oversized_request : ProductCreate :=
  {| pc_name := "Shirt"; pc_price := 1999;
     pc_sizes := [ {| size := "S"; quantity := 2 ^ 63 |} ] |}.

(** A hat, offered later. *)
Definition hat_request : ProductCreate :=
  {| pc_name := "Hat"; pc_price := 500; pc_sizes := [] |}.

Definition three_shirts_order : order_doc :=
  {| o_id := order_id; o_userId := "u";
     o_items := [ {| productId := shirt_hex; qty := 3 |} ];
     o_created_at := 7; o_status := "created" |}.

Definition shop_after_order : Database :=
  {| products_collection := [shirt]; orders_collection := [three_shirts_order] |}.

(** How the listings show the shirt and the order of three shirts. *)
Definition shirt_listed : ProductsListResponse :=
  {| pl_data := [product_data shirt]; pl_page := pagination 0 10 1 |}.

Definition three_shirts_shown : OrderData :=
  {| od_id := str_oid order_id;
     od_items :=
       [ {| productDetails := {| pd_name := "Shirt"; pd_id := shirt_hex |};
            od_qty := 3 |} ];
     total := 5997 |}.

Definition three_shirts_listed : OrdersListResponse :=
  {| ol_data := [three_shirts_shown]; ol_page := pagination 0 10 1 |}.

End Shop.

(** ** The connection to the store *)

Module Connection.

(** [os.getenv("MONGODB_URL") or "mongodb://localhost:27017"]: an unset or
    empty variable gives the local address. *)
Definition MONGODB_URL (getenv : option string) : string :=
  match truthy getenv with
  | Some url => url
  | None => "mongodb://localhost:27017"
  end.

Definition DATABASE_NAME : string := "ecommerce".

(** The objects of the driver: [MongoClient(url, serverSelectionTimeoutMS=t)],
    [client[name]] and [db.name]. *)
Inductive mongo_client : Type :=
| MongoClient (url : string) (serverSelectionTimeoutMS : Z).

Inductive database : Type :=
| getitem (client : mongo_client) (name : string).

Inductive collection : Type :=
| getattr (db : database) (name : string).

(** The two errors of the driver that [get_database] catches, and what the
    server does on [client.admin.command('ping')]. *)
Inductive pymongo_error : Type :=
| ServerSelectionTimeoutError
| ConnectionFailure.

Inductive server : Type :=
| answers
| fails (e : pymongo_error).

(** The details of the 503 responses: the text of [get_database], which
    names the address, and the f-string of [health_check] around [str(e)],
    [e] being an error of the driver or the [HTTPException] of
    [ensure_db_connection]. *)
Inductive message : Type :=
| please_ensure_running_at (url : string)
| connection_failed_pymongo (e : pymongo_error)
| connection_failed_http (status_code : Z) (detail : message).

Record HTTPException : Type :=
  { status_code : Z; detail : message }.

(** The four module-level variables. *)
Record globals : Type :=
  { db : option database;
    client : option mongo_client;
    products_collection : option collection;
    orders_collection : option collection }.

Definition is_None {A : Type} (x : option A) : bool :=
  match x with
  | None => true
  | Some _ => false
  end.

(** [get_database()], the server being in state [s] when it is pinged. *)
Definition get_database (url : string) (s : server)
  : HTTPException + database * mongo_client :=
  let new_client := MongoClient url 5000 in
  match s with
  | answers => inr (getitem new_client DATABASE_NAME, new_client)
  | fails _ =>
      inl {| status_code := 503; detail := please_ensure_running_at url |}
  end.

(** The assignments that follow a successful [get_database()]. *)
Definition connected (d : database) (c : mongo_client) : globals :=
  {| db := Some d; client := Some c;
     products_collection := Some (getattr d "products");
     orders_collection := Some (getattr d "orders") |}.

Definition disconnected : globals :=
  {| db := None; client := None; products_collection := None;
     orders_collection := None |}.

(** The initialisation of the module. *)
Definition startup (url : string) (s : server) : globals :=
  match get_database url s with
  | inr (d, c) => connected d c
  | inl _ => disconnected
  end.

(** [ensure_db_connection()]: the exception raised, if any, and the
    variables afterwards. *)
Definition ensure_db_connection (url : string) (s : server) (g : globals)
  : option HTTPException * globals :=
  if is_None (db g) || is_None (client g) then
    match get_database url s with
    | inr (d, c) => (None, connected d c)
    | inl e => (Some e, g)
    end
  else (None, g).

Inductive health : Type :=
| healthy_connected
| unavailable (e : HTTPException).

(** [health_check()]: [s_connect] is the state of the server when a
    connection is attempted, [s_ping] its state at the ping of the handler
    itself. *)
Definition health_check (url : string) (s_connect s_ping : server)
  (g : globals) : health * globals :=
  let (raised, g') :=
    if is_None (client g) then ensure_db_connection url s_connect g
    else (None, g) in
  match raised with
  | Some e =>
      (unavailable
         {| status_code := 503;
            detail := connection_failed_http (status_code e) (detail e) |},
       g')
  | None =>
      match s_ping with
      | answers => (healthy_connected, g')
      | fails e =>
          (unavailable
             {| status_code := 503; detail := connection_failed_pymongo e |},
           g')
      end
  end.

(** A request to the service, as far as the connection is concerned. *)
Inductive request : Type :=
| handler_request (s : server)
| health_request (s_connect s_ping : server).

Definition serve (url : string) (g : globals) (r : request) : globals :=
  match r with
  | handler_request s => snd (ensure_db_connection url s g)
  | health_request s_connect s_ping =>
      snd (health_check url s_connect s_ping g)
  end.

(** The variables are set together. *)
Definition consistent (g : globals) : Prop :=
  g = disconnected \/ exists c, g = connected (getitem c DATABASE_NAME) c.

End Connection.

(** ** [serialize_doc] *)

Section SerializeDoc.

(** The values of a document, and [str] on them. *)
Context {value : Type}.
Variable str : value -> value.

(** A dict: its items in insertion order, keys distinct. *)
Definition dict : Type := list (string * value).

Fixpoint dict_get (key : string) (d : dict) : option value :=
  match d with
  | [] => None
  | (k, v) :: rest => if String.eqb k key then Some v else dict_get key rest
  end.

(** [d[key] = v]: an existing key keeps its place. *)
Fixpoint dict_set (key : string) (v : value) (d : dict) : dict :=
  match d with
  | [] => [(key, v)]
  | (k, w) :: rest =>
      if String.eqb k key then (k, v) :: rest
      else (k, w) :: dict_set key v rest
  end.

Inductive serialized : Type :=
| returns (doc : option dict)
| KeyError (key : string).

(** [serialize_doc(doc)]: what the call yields, and the argument afterwards
    (the dict is changed in place and is the object returned). *)
Definition serialize_doc (doc : option dict) : serialized * option dict :=
  match doc with
  | None => (returns None, doc)
  | Some [] => (returns None, doc)
  | Some d =>
      match dict_get "_id" d with
      | None => (KeyError "_id", doc)
      | Some v =>
          let d' := dict_set "_id" (str v) d in
          (returns (Some d'), Some d')
      end
  end.

End SerializeDoc.

(** Documents whose values are ObjectIds or strings, with [str] on them. *)
Definition str_id_or_text (v : oid + string) : oid + string :=
  match v with
  | inl i => inr (str_oid i)
  | inr text => inr text
  end.

(** A document with an ObjectId, and one without ["_id"]. *)
Definition shirt_dict : @dict (oid + string) :=
  [("_id", inl shirt_id); ("name", inr "Shirt")].

Definition nameless_dict : @dict (oid + string) := [("name", inr "Shirt")].

(** * Properties *)

Section Properties.

Context {runtime : Runtime}.

(** ** Pagination *)

(** C3: the pagination block yields [next] equal to [offset + limit] as a
    string exactly when [offset + limit < total_count] and no [next]
    otherwise, a [previous] exactly when [offset > 0], then equal to
    [max(0, offset - limit)], and the given [limit]; being a function, it is
    total and has no effect. *)
Theorem pagination_helper (offset lim total_count : Z)
  (Hlimit : 1 <= lim <= 100) (Hoffset : 0 <= offset)
  (Htotal : 0 <= total_count) :
  let page := pagination offset lim total_count in
  (next page = Some (str_int (offset + lim)) <-> offset + lim < total_count)
  /\ (next page = None <-> total_count <= offset + lim)
  /\ (previous page <> None <-> 0 < offset)
  /\ (0 < offset -> previous page = Some (Z.max 0 (offset - lim)))
  /\ limit page = lim.
Proof.
  unfold pagination; cbn.
  destruct (Z.ltb_spec (offset + lim) total_count) as [Hn | Hn];
    destruct (Z.ltb_spec 0 offset) as [Hp | Hp];
    repeat split; intros; try lia; try reflexivity; try discriminate;
    try congruence.
Qed.

(** ** The handlers as equations *)

Lemma oid_eqb_eq (a b : oid) : oid_eqb a b = true <-> a = b.
Proof.
  destruct a as [x], b as [y]; unfold oid_eqb; cbn.
  rewrite String.eqb_eq. split; intro H; [now subst | now injection H].
Qed.

Lemma oid_eq_dec (a b : oid) : {a = b} + {a <> b}.
Proof.
  destruct (oid_eqb a b) eqn:E.
  - left. now apply oid_eqb_eq.
  - right. intro H. apply oid_eqb_eq in H. congruence.
Qed.

Lemma order_items_copy (its : list OrderItem) :
  map (fun item => {| productId := productId item; qty := qty item |}) its = its.
Proof.
  induction its as [| [p q] its IH]; cbn; [reflexivity | now rewrite IH].
Qed.

Lemma create_order_run (now : datetime) (new_id : oid) (order : OrderCreate)
  (db : Database) :
  create_order now new_id order db
  = match comprehension (fun item => ObjectId (productId item)) (items order) with
    | Raise e => (except_HTTPException_raise (Raise e), db)
    | Ok product_ids =>
        if Nat.eqb (List.length (found_products db product_ids))
             (List.length product_ids)
        then
          if forallb (fun item => fits_int64 (qty item)) (items order)
          then (Ok {| id := str_oid new_id |},
                {| products_collection := products_collection db;
                   orders_collection :=
                     orders_collection db ++ [inserted_order now new_id order] |})
          else (Raise (HTTPException 500 (Str OverflowError)), db)
        else (Raise (HTTPException 400 (Text "One or more products not found")),
              db)
    end.
Proof.
  unfold create_order, try_except, bind, lift, products_find, raise, ret,
    orders_insert_one, inserted_order, found_products; cbn.
  destruct (comprehension _ (items order)) as [ids | e]; [| reflexivity].
  rewrite (filter_ext _ (fun d => existsb (oid_eqb (p_id d)) ids))
    by (intro d; apply andb_true_r).
  destruct (Nat.eqb _ _); cbn; [| reflexivity].
  rewrite order_items_copy.
  now destruct (forallb _ (items order)).
Qed.

Lemma list_products_run (name size : option string) (lim off : Z)
  (db : Database) :
  list_products name size lim off db
  = match filter_matcher (filter_query name size) with
    | Ok m =>
        (Ok {| pl_data :=
                 map product_data
                   (limit_to lim (skip off (filter m (products_collection db))));
               pl_page :=
                 pagination off lim
                   (Z.of_nat (List.length (filter m (products_collection db)))) |},
         db)
    | Raise e => (Raise (HTTPException 500 (Str e)), db)
    end.
Proof.
  unfold list_products, try_except, bind, products_count_documents,
    products_find, ret; cbn.
  destruct (filter_matcher (filter_query name size)); reflexivity.
Qed.

(** In range, the cursor holds the [window] of the matching documents. *)
Lemma limit_to_window {A : Type} (lim off : Z) (docs : list A) :
  1 <= lim -> limit_to lim (skip off docs) = window lim off docs.
Proof.
  intro H. unfold limit_to, skip, window.
  destruct (Z.eqb_spec lim 0); [lia | reflexivity].
Qed.

(** ** Query parameters *)

(** C10: on both listing routes an omitted [limit] is 10 and an omitted
    [offset] is 0; a supplied value within [1 <= limit <= 100] and
    [0 <= offset] reaches the handler as it is, and a supplied value outside
    is answered by a validation error without the handler being run: no
    value is clamped. *)
Theorem listing_query_parameters (name size : option string)
  (user_id : string) (l o : Z) (db : Database) :
  route_list_products name size None None db = list_products name size 10 0 db
  /\ route_get_user_orders user_id None None db
     = get_user_orders user_id 10 0 db
  /\ route_list_products name size (Some l) None db
     = (if (1 <=? l) && (l <=? 100) then list_products name size l 0 db
        else (Raise RequestValidationError, db))
  /\ route_get_user_orders user_id (Some l) None db
     = (if (1 <=? l) && (l <=? 100) then get_user_orders user_id l 0 db
        else (Raise RequestValidationError, db))
  /\ route_list_products name size None (Some o) db
     = (if 0 <=? o then list_products name size 10 o db
        else (Raise RequestValidationError, db))
  /\ route_get_user_orders user_id None (Some o) db
     = (if 0 <=? o then get_user_orders user_id 10 o db
        else (Raise RequestValidationError, db))
  /\ route_list_products name size (Some l) (Some o) db
     = (if (1 <=? l) && (l <=? 100) && (0 <=? o)
        then list_products name size l o db
        else (Raise RequestValidationError, db))
  /\ route_get_user_orders user_id (Some l) (Some o) db
     = (if (1 <=? l) && (l <=? 100) && (0 <=? o)
        then get_user_orders user_id l o db
        else (Raise RequestValidationError, db)).
Proof.
  unfold route_list_products, route_get_user_orders, bind, lift,
    validate_query, limit_query, offset_query, bound_holds; cbn.
  rewrite !Z.geb_leb.
  repeat split;
    destruct (1 <=? l), (l <=? 100), (0 <=? o); reflexivity.
Qed.

(** ** Counting the products found for a list of ids *)

(** The products found have pairwise distinct ids when the store has. *)
Lemma found_products_unique (db : Database) (ids : list oid) :
  unique_product_ids db -> NoDup (map p_id (found_products db ids)).
Proof.
  unfold unique_product_ids, found_products.
  induction (products_collection db) as [| d docs IH]; cbn; intro Hu;
    [constructor |].
  apply NoDup_cons_iff in Hu as [Hfresh Hrest].
  destruct (existsb (oid_eqb (p_id d)) ids); cbn; [| now apply IH].
  apply NoDup_cons; [| now apply IH].
  intro Hin. apply Hfresh.
  apply in_map_iff in Hin as [d' [Hid Hin]].
  apply filter_In in Hin as [Hin _].
  rewrite <- Hid. now apply in_map.
Qed.

Lemma found_products_ids (db : Database) (ids : list oid) (i : oid) :
  In i (map p_id (found_products db ids))
  <-> In i (map p_id (products_collection db)) /\ In i ids.
Proof.
  unfold found_products. rewrite !in_map_iff. split.
  - intros [d [Hd Hin]]. apply filter_In in Hin as [Hin Hex].
    apply existsb_exists in Hex as [y [Hy Heq]].
    apply oid_eqb_eq in Heq. subst. split; [now exists d | assumption].
  - intros [[d [Hd Hin]] Hi]. exists d. split; [assumption |].
    apply filter_In. split; [assumption |].
    apply existsb_exists. exists i. split; [assumption |].
    now apply oid_eqb_eq.
Qed.

Lemma nodup_length_lt (l : list oid) :
  ~ NoDup l -> (List.length (nodup oid_eq_dec l) < List.length l)%nat.
Proof.
  assert (Hle : forall l' : list oid,
             (List.length (nodup oid_eq_dec l') <= List.length l')%nat).
  { induction l' as [| a l' IH]; cbn; [lia |].
    destruct (in_dec oid_eq_dec a l'); cbn; lia. }
  induction l as [| a l IH]; cbn; intro H.
  - exfalso. apply H. constructor.
  - destruct (in_dec oid_eq_dec a l) as [Hin | Hnot]; cbn.
    + specialize (Hle l). lia.
    + assert (~ NoDup l) by (intro Hl; apply H; now constructor).
      specialize (IH H0). lia.
Qed.

(** With a duplicate among the requested ids, fewer products are found than
    ids were requested. *)
Lemma found_fewer_when_duplicate (db : Database) (ids : list oid) :
  unique_product_ids db -> ~ NoDup ids ->
  (List.length (found_products db ids) < List.length ids)%nat.
Proof.
  intros Hu Hdup.
  apply Nat.le_lt_trans with (List.length (nodup oid_eq_dec ids));
    [| now apply nodup_length_lt].
  rewrite <- (length_map p_id).
  apply NoDup_incl_length.
  - now apply found_products_unique.
  - apply nodup_incl. intros i Hi. now apply found_products_ids in Hi.
Qed.

(** With a requested id that no product has, fewer products are found than
    ids were requested. *)
Lemma found_fewer_when_missing (db : Database) (ids : list oid) (i : oid) :
  unique_product_ids db -> In i ids ->
  ~ In i (map p_id (products_collection db)) ->
  (List.length (found_products db ids) < List.length ids)%nat.
Proof.
  intros Hu Hi Hmiss.
  apply Nat.le_lt_trans with (List.length (remove oid_eq_dec i ids));
    [| now apply remove_length_lt].
  rewrite <- (length_map p_id).
  apply NoDup_incl_length.
  - now apply found_products_unique.
  - intros j Hj. apply found_products_ids in Hj as [Hstore Hids].
    apply in_in_remove; [| assumption].
    intro E. subst. contradiction.
Qed.

(** The ids that the comprehension of [create_order] yields are the parsed
    ids of the items, in order. *)
Lemma comprehension_ok {A B : Type} (f : A -> result B) (xs : list A)
  (ys : list B) :
  comprehension f xs = Ok ys -> Forall2 (fun x y => f x = Ok y) xs ys.
Proof.
  revert ys. induction xs as [| x xs IH]; cbn; intros ys H.
  - injection H as <-. constructor.
  - destruct (f x) as [y |] eqn:E; [| discriminate].
    destruct (comprehension f xs) as [ys' |]; [| discriminate].
    injection H as <-. constructor; [assumption | now apply IH].
Qed.

(** The first element on which [f] raises decides the comprehension. *)
Lemma comprehension_raise {A B : Type} (f : A -> result B) (xs : list A) :
  (exists x, In x xs /\ forall y, f x <> Ok y) ->
  exists x e, In x xs /\ f x = Raise e /\ comprehension f xs = Raise e.
Proof.
  induction xs as [| x xs IH]; cbn; intros [x0 [Hin Hbad]]; [contradiction |].
  destruct (f x) as [y | e] eqn:E.
  - destruct Hin as [-> | Hin]; [now elim (Hbad y) |].
    destruct IH as [x1 [e [Hin1 [Hx1 Hc]]]]; [now exists x0 |].
    exists x1, e. rewrite Hc. auto.
  - exists x, e. auto.
Qed.

(** ** Order creation *)

Lemma ObjectId_raise (s : string) (e : exn) :
  ObjectId s = Raise e -> e = InvalidId s.
Proof.
  unfold ObjectId. destruct (Nat.eqb _ _); [destruct (fromhex s) |];
    intro H; try discriminate; now injection H.
Qed.

Lemma found_products_nil (db : Database) : found_products db [] = [].
Proof.
  unfold found_products.
  induction (products_collection db) as [| d l IH]; cbn; [reflexivity | exact IH].
Qed.

(** Equal id strings parse to equal ids, so a repeated string is a repeated
    id. *)
Lemma parsed_ids_repeat (its : list OrderItem) (ids : list oid) :
  Forall2 (fun item i => ObjectId (productId item) = Ok i) its ids ->
  NoDup ids -> NoDup (map productId its).
Proof.
  induction 1 as [| item i its ids Hi Hall IH]; cbn; intro Hnd; [constructor |].
  inversion Hnd as [| ? ? Hnot Hrest]; subst.
  constructor; [| now apply IH].
  intro Hin. apply Hnot. clear - Hin Hi Hall.
  induction Hall as [| item' i' its ids Hi' Hall IH]; cbn in *; [contradiction |].
  destruct Hin as [E | Hin]; [| right; now apply IH].
  left. rewrite E in Hi'. congruence.
Qed.

(** Whatever [create_order] raises, it has inserted nothing. *)
Lemma create_order_error_inserts_nothing (now : datetime) (new_id : oid)
  (order : OrderCreate) (db db' : Database) (e : exn) :
  create_order now new_id order db = (Raise e, db') -> db' = db.
Proof.
  rewrite create_order_run.
  destruct (comprehension _ _) as [ids | e0].
  - destruct (Nat.eqb _ _); [destruct (forallb _ _) |]; intro H;
      solve [discriminate | now injection H].
  - intro H. now injection H.
Qed.

(** C9: an order without items is accepted whatever the store holds: the
    order is inserted with an empty list of items and the generated id is
    returned. *)
Theorem create_order_empty_items (now : datetime) (new_id : oid)
  (order : OrderCreate) (db : Database) (Hempty : items order = []) :
  create_order now new_id order db
  = (Ok {| id := str_oid new_id |},
     {| products_collection := products_collection db;
        orders_collection :=
          orders_collection db
          ++ [ {| o_id := new_id; o_userId := userId order; o_items := [];
                  o_created_at := now; o_status := "created" |} ] |}).
Proof.
  rewrite create_order_run, Hempty; cbn.
  rewrite found_products_nil; cbn.
  unfold inserted_order. now rewrite Hempty.
Qed.

(** C8: when [create_order] succeeds, exactly one document has been added to
    the orders, after the existing ones; its status is ["created"], its
    timestamp the time of the request, its user the [userId] of the request
    and its items the (productId, qty) pairs of the request in the same
    order; an [order_doc] has no other field, in particular no price; the
    products are untouched and the returned id is that of the document. *)
Theorem create_order_inserted_document (now : datetime) (new_id : oid)
  (order : OrderCreate) (db db' : Database) (r : OrderResponse)
  (Hok : create_order now new_id order db = (Ok r, db')) :
  exists doc,
    orders_collection db' = orders_collection db ++ [doc]
    /\ products_collection db' = products_collection db
    /\ o_status doc = "created"
    /\ o_created_at doc = now
    /\ o_userId doc = userId order
    /\ map (fun item => (productId item, qty item)) (o_items doc)
       = map (fun item => (productId item, qty item)) (items order)
    /\ id r = str_oid (o_id doc).
Proof.
  rewrite create_order_run in Hok.
  destruct (comprehension _ _) as [ids | e];
    [| destruct e; discriminate].
  destruct (Nat.eqb _ _); [| discriminate].
  destruct (forallb _ _); [| discriminate].
  injection Hok as <- <-.
  exists (inserted_order now new_id order). cbn. repeat split.
Qed.

(** C1, as the code behaves: an order in which a productId occurs twice is
    refused with the 400 error "One or more products not found", also when
    every requested product exists, and nothing is inserted: the number of
    distinct documents found is compared with the number of line items. *)
Theorem create_order_duplicate_rejected (now : datetime) (new_id : oid)
  (order : OrderCreate) (db : Database) (ids : list oid)
  (Hunique : unique_product_ids db)
  (Hids : comprehension (fun item => ObjectId (productId item)) (items order)
          = Ok ids)
  (Hdup : ~ NoDup (map productId (items order))) :
  create_order now new_id order db
  = (Raise (HTTPException 400 (Text "One or more products not found")), db).
Proof.
  rewrite create_order_run, Hids.
  assert (Hlt : (List.length (found_products db ids) < List.length ids)%nat).
  { apply found_fewer_when_duplicate; [assumption |].
    intro Hnd. apply Hdup.
    apply parsed_ids_repeat with ids; [| assumption].
    now apply comprehension_ok. }
  destruct (Nat.eqb_spec (List.length (found_products db ids)) (List.length ids));
    [lia | reflexivity].
Qed.

(** Where the comprehension of [create_order] stops: at the first item
    whose productId is refused, those before it being accepted. *)
Lemma first_refused (its : list OrderItem) :
  (exists item,
      In item its /\ forall i, ObjectId (productId item) <> Ok i) ->
  exists before item after,
    its = before ++ item :: after
    /\ Forall (fun earlier => exists i, ObjectId (productId earlier) = Ok i)
         before
    /\ (forall i, ObjectId (productId item) <> Ok i)
    /\ first_malformed its = Some (productId item)
    /\ comprehension (fun item => ObjectId (productId item)) its
       = Raise (InvalidId (productId item)).
Proof.
  induction its as [| x its IH]; intros [bad [Hin Hbad]]; [contradiction |].
  cbn [first_malformed comprehension].
  destruct (ObjectId (productId x)) as [i | e] eqn:Hx.
  - destruct Hin as [-> | Hin]; [now elim (Hbad i) |].
    destruct IH as [before [item [after [-> [Hbefore [Hitem [Hfirst Hc]]]]]]];
      [now exists bad |].
    exists (x :: before), item, after. rewrite Hfirst, Hc.
    split; [reflexivity |]. split; [| auto].
    constructor; [now exists i | assumption].
  - exists [], x, its. apply ObjectId_raise in Hx as He. subst e.
    split; [reflexivity |]. split; [constructor |].
    split; [| auto]. intros i Hi. congruence.
Qed.

(** C2, amended: when some productId of the request is not a well-formed
    ObjectId, [create_order] answers 500 with, as detail, the text of the
    [InvalidId] error of the first such productId in the order of the
    items, whatever the store holds (no lookup has taken place), and inserts
    nothing. *)
Theorem create_order_malformed_id (now : datetime) (new_id : oid)
  (order : OrderCreate)
  (Hbad : exists item,
      In item (items order) /\ forall i, ObjectId (productId item) <> Ok i) :
  exists before item after,
    items order = before ++ item :: after
    /\ Forall (fun earlier => exists i, ObjectId (productId earlier) = Ok i)
         before
    /\ (forall i, ObjectId (productId item) <> Ok i)
    /\ first_malformed (items order) = Some (productId item)
    /\ forall db,
        create_order now new_id order db
        = (Raise (HTTPException 500 (Str (InvalidId (productId item)))), db).
Proof.
  destruct (first_refused (items order) Hbad)
    as [before [item [after [Hsplit [Hbefore [Hitem [Hfirst Hc]]]]]]].
  exists before, item, after.
  split; [exact Hsplit |]. split; [exact Hbefore |].
  split; [exact Hitem |]. split; [exact Hfirst |].
  intro db. rewrite create_order_run, Hc. reflexivity.
Qed.

(** C4, amended: when every productId of the request is well-formed and one
    of them is the id of no product, [create_order] answers 400 with "One or
    more products not found" and leaves the store as it was. *)
Theorem create_order_unknown_product (now : datetime) (new_id : oid)
  (order : OrderCreate) (db : Database) (ids : list oid) (i : oid)
  (Hunique : unique_product_ids db)
  (Hids : comprehension (fun item => ObjectId (productId item)) (items order)
          = Ok ids)
  (Hin : In i ids)
  (Hmissing : ~ In i (map p_id (products_collection db))) :
  create_order now new_id order db
  = (Raise (HTTPException 400 (Text "One or more products not found")), db).
Proof.
  rewrite create_order_run, Hids.
  pose proof (found_fewer_when_missing db ids i Hunique Hin Hmissing) as Hlt.
  destruct (Nat.eqb_spec (List.length (found_products db ids)) (List.length ids));
    [lia | reflexivity].
Qed.

(** ** Product listing *)

Lemma in_window {A : Type} (lim off : Z) (docs : list A) (x : A) :
  In x (limit_to lim (skip off docs)) -> In x docs.
Proof.
  unfold limit_to, skip. intro H.
  assert (Hs : In x (skipn (Z.to_nat off) docs)).
  { destruct (lim =? 0); [assumption |].
    rewrite <- (firstn_skipn (Z.to_nat lim) (skipn (Z.to_nat off) docs)).
    apply in_or_app. now left. }
  rewrite <- (firstn_skipn (Z.to_nat off) docs).
  apply in_or_app. now right.
Qed.

(** The document of rank [k] among [docs ++ [x]], where [k] is the number of
    [docs], is shown by every window that covers rank [k]. *)
Lemma last_in_window {A : Type} (lim off : Z) (docs : list A) (x : A) :
  0 <= off <= Z.of_nat (List.length docs) ->
  Z.of_nat (List.length docs) < off + lim ->
  In x (window lim off (docs ++ [x])).
Proof.
  intros Hoff Hlim. unfold window.
  rewrite skipn_app, firstn_app, length_skipn.
  apply in_or_app. right.
  replace (Z.to_nat off - List.length docs)%nat with 0%nat by lia.
  destruct (Z.to_nat lim - (List.length docs - Z.to_nat off))%nat eqn:E;
    [lia | now left].
Qed.

Lemma sizes_copy (sizes : list SizeInfo) :
  map (fun s => {| size := size s; quantity := quantity s |}) sizes = sizes.
Proof.
  induction sizes as [| [z q] l IH]; cbn; [reflexivity | now rewrite IH].
Qed.

Lemma create_product_run (now : datetime) (new_id : oid)
  (product : ProductCreate) (db : Database) :
  create_product now new_id product db
  = if forallb (fun s => fits_int64 (quantity s)) (pc_sizes product)
    then
      (Ok {| id := str_oid new_id |},
       {| products_collection :=
            products_collection db
            ++ [ {| p_id := new_id; p_name := pc_name product;
                    p_price := pc_price product; p_sizes := pc_sizes product;
                    p_created_at := now |} ];
          orders_collection := orders_collection db |})
    else (Raise (HTTPException 500 (Str OverflowError)), db).
Proof.
  unfold create_product, try_except, bind, products_insert_one, ret; cbn.
  rewrite sizes_copy.
  now destruct (forallb _ (pc_sizes product)).
Qed.

(** A non-empty size argument puts the key ["sizes.size"] in the filter. *)
Lemma size_filter_matcher (name : option string) (s : string)
  (m : product_doc -> bool) (d : product_doc) :
  s <> "" -> filter_matcher (filter_query name (Some s)) = Ok m ->
  m d = true -> has_size s d = true.
Proof.
  intros Hs Hm Hd. unfold filter_query in Hm.
  assert (Ht : truthy (Some s) = Some s) by (destruct s; [congruence | reflexivity]).
  rewrite Ht in Hm.
  destruct (truthy name) as [n |]; cbn in Hm.
  - destruct (mongo_regex n "i"); [| discriminate].
    injection Hm as <-. rewrite andb_true_r in Hd.
    now apply andb_prop in Hd.
  - injection Hm as <-. now rewrite andb_true_r in Hd.
Qed.

(** *** The search of the store finds a text exactly where it occurs *)

Lemma N_of_ascii_inj (a b : ascii) : N_of_ascii a = N_of_ascii b -> a = b.
Proof.
  intro H. rewrite <- (ascii_N_embedding a), <- (ascii_N_embedding b).
  now rewrite H.
Qed.

Lemma N_of_lower (c : ascii) :
  N_of_ascii (lower c)
  = if (65 <=? N_of_ascii c)%N && (N_of_ascii c <=? 90)%N
    then (N_of_ascii c + 32)%N else N_of_ascii c.
Proof.
  unfold lower.
  destruct (N.leb_spec 65 (N_of_ascii c)); cbn [andb]; [| reflexivity].
  destruct (N.leb_spec (N_of_ascii c) 90); [| reflexivity].
  apply N_ascii_embedding. lia.
Qed.

Lemma char_eqb_same_letter (a b : ascii) :
  char_eqb true a b = true <-> same_letter a b.
Proof.
  unfold char_eqb, same_letter, capital. rewrite Ascii.eqb_eq.
  split.
  - intro H. apply (f_equal N_of_ascii) in H. rewrite !N_of_lower in H.
    destruct (N.leb_spec 65 (N_of_ascii a)), (N.leb_spec (N_of_ascii a) 90),
      (N.leb_spec 65 (N_of_ascii b)), (N.leb_spec (N_of_ascii b) 90);
      cbn [andb] in H;
      solve [ left; apply N_of_ascii_inj; lia
            | right; left; lia
            | right; right; lia ].
  - intro H. apply N_of_ascii_inj. rewrite !N_of_lower.
    destruct H as [-> | [[Ha Hb] | [Hb Ha]]]; [reflexivity | |];
      destruct (N.leb_spec 65 (N_of_ascii a)), (N.leb_spec (N_of_ascii a) 90),
        (N.leb_spec 65 (N_of_ascii b)), (N.leb_spec (N_of_ascii b) 90);
      cbn [andb]; lia.
Qed.

Lemma starts_with_same_letters (p s : string) :
  starts_with true p s = true
  <-> exists found rest, s = String.append found rest /\ same_letters p found.
Proof.
  revert s. induction p as [| a p IH]; intro s.
  - split; [| reflexivity]. intros _.
    exists EmptyString, s. split; [reflexivity | constructor].
  - destruct s as [| b s]; cbn [starts_with].
    + split; [discriminate |].
      intros [found [rest [Hs Hsame]]]. inversion Hsame; subst. discriminate.
    + rewrite andb_true_iff, char_eqb_same_letter, IH. split.
      * intros [Hab [found [rest [-> Hsame]]]].
        exists (String b found), rest. split; [reflexivity | now constructor].
      * intros [found [rest [Hs Hsame]]].
        inversion Hsame as [| a' b' p' found' Hab Hrest]; subst.
        cbn in Hs. injection Hs as -> ->. split; [assumption |].
        now exists found', rest.
Qed.

Lemma search_occurs (p s : string) :
  search true p s = true <-> occurs_ignoring_case p s.
Proof.
  unfold occurs_ignoring_case. split.
  - induction s as [| c s IH]; cbn [search]; rewrite orb_true_iff.
    + intros [H | H]; [| discriminate].
      apply starts_with_same_letters in H as [found [rest [Hs Hsame]]].
      now exists EmptyString, found, rest.
    + intros [H | H].
      * apply starts_with_same_letters in H as [found [rest [Hs Hsame]]].
        now exists EmptyString, found, rest.
      * destruct (IH H) as [before [found [after [-> Hsame]]]].
        now exists (String c before), found, after.
  - intros [before [found [after [-> Hsame]]]].
    induction before as [| c before IH].
    + cbn [String.append].
      assert (H : starts_with true p (String.append found after) = true)
        by (apply starts_with_same_letters; eauto).
      destruct (String.append found after); cbn [search]; now rewrite H.
    + cbn [String.append search]. rewrite IH. apply orb_true_r.
Qed.

(** The matcher of a listing with a plain name selects what the
    specification expects. *)
Lemma matcher_selects (name wanted : option string) (m : product_doc -> bool)
  (d : product_doc) :
  plain_name name ->
  filter_matcher (filter_query name wanted) = Ok m ->
  m d = true <-> spec_name_selects name d /\ spec_size_selects wanted d.
Proof.
  unfold plain_name, spec_name_selects, spec_size_selects, filter_query.
  intros Hplain Hm.
  assert (Hhas : forall s, has_size s d = true
                           <-> exists e, In e (p_sizes d) /\ size e = s).
  { intro s. unfold has_size. rewrite existsb_exists.
    split; intros [e [He Hs]]; exists e; split; try assumption;
      now apply String.eqb_eq. }
  destruct (truthy name) as [text |]; destruct (truthy wanted) as [s |];
    cbn [app filter_matcher condition_matcher] in Hm.
  - unfold mongo_regex in Hm. rewrite Hplain in Hm. cbn in Hm.
    injection Hm as <-.
    now rewrite !andb_true_iff, search_occurs, Hhas.
  - unfold mongo_regex in Hm. rewrite Hplain in Hm. cbn in Hm.
    injection Hm as <-.
    rewrite !andb_true_iff, search_occurs. tauto.
  - injection Hm as <-. rewrite !andb_true_iff, Hhas. tauto.
  - injection Hm as <-. tauto.
Qed.

(** C6: a listing whose filter the store accepts returns, for the matching
    products in store order, those after the first [offset] and at most
    [limit] of them, each as its id, name and price and nothing else (a
    [ProductResponse] has no field for the sizes).  The name is matched
    without regard to case: for a name of letters and digits the products
    selected are exactly those whose name contains it, case ignored (and
    that have the size asked for, if any).  So a product that has been
    created with the name "Shirt" is listed under the name filter "shirt",
    with the id returned at its creation, its name and its price, by every
    page that covers its rank among the products so named. *)
Theorem list_products_projection (name size : option string) (lim off : Z)
  (db : Database) (m : product_doc -> bool)
  (Hlimit : 1 <= lim <= 100) (Hoffset : 0 <= off)
  (Hfilter : filter_matcher (filter_query name size) = Ok m) :
  (exists r,
      list_products name size lim off db = (Ok r, db)
      /\ pl_data r
         = map product_data (window lim off (filter m (products_collection db)))
      /\ Z.of_nat (List.length (pl_data r)) <= lim
      /\ forall p, In p (pl_data r) ->
           exists d, In d (products_collection db) /\ m d = true
                     /\ pr_id p = str_oid (p_id d) /\ pr_name p = p_name d
                     /\ pr_price p = p_price d)
  /\ (plain_name name ->
      forall d, m d = true <-> spec_name_selects name d /\ spec_size_selects size d)
  /\ forall (now : datetime) (new_id : oid) (price : float)
        (sizes : list SizeInfo) (created : OrderResponse) (db1 : Database)
        (named_shirt : product_doc -> bool),
      (forall d, named_shirt d = true
                 <-> occurs_ignoring_case "shirt" (p_name d)) ->
      create_product now new_id
        {| pc_name := "Shirt"; pc_price := price; pc_sizes := sizes |} db
      = (Ok created, db1) ->
      off <= Z.of_nat (List.length (filter named_shirt (products_collection db)))
      < off + lim ->
      exists r,
        list_products (Some "shirt") None lim off db1 = (Ok r, db1)
        /\ In {| pr_id := id created; pr_name := "Shirt"; pr_price := price |}
             (pl_data r).
Proof.
  split; [| split].
  - rewrite list_products_run, Hfilter.
    rewrite limit_to_window by lia.
    eexists. split; [reflexivity |]. cbn. split; [reflexivity |]. split.
    + rewrite length_map. unfold window.
      pose proof (firstn_le_length (Z.to_nat lim)
                    (skipn (Z.to_nat off) (filter m (products_collection db)))).
      lia.
    + intros p Hp. apply in_map_iff in Hp as [d [<- Hd]].
      rewrite <- limit_to_window in Hd by lia.
      apply in_window, filter_In in Hd as [Hin Hmd].
      exists d. cbn. auto.
  - intros Hplain d. now apply matcher_selects.
  - intros now new_id price sizes created db1 named_shirt Hnamed Hcreated Hrank.
    rewrite create_product_run in Hcreated. cbn [pc_sizes] in Hcreated.
    destruct (forallb _ sizes); [| discriminate].
    injection Hcreated as <- <-.
    rewrite list_products_run.
    change (filter_matcher (filter_query (Some "shirt") None))
      with (Ok (fun d : product_doc => search true "shirt" (p_name d) && true)).
    cbv beta iota.
    rewrite limit_to_window by lia.
    eexists. split; [reflexivity |].
    cbn [pl_data products_collection pc_name pc_price pc_sizes id].
    rewrite filter_app.
    rewrite (filter_ext _ named_shirt).
    + change (filter _ [_]) with
        [ {| p_id := new_id; p_name := "Shirt"; p_price := price;
             p_sizes := sizes; p_created_at := now |} ].
      apply (in_map product_data _
               {| p_id := new_id; p_name := "Shirt"; p_price := price;
                  p_sizes := sizes; p_created_at := now |}).
      apply last_in_window; lia.
    + intro d. rewrite andb_true_r.
      destruct (named_shirt d) eqn:E.
      * now apply search_occurs, Hnamed.
      * destruct (search true "shirt" (p_name d)) eqn:E'; [| reflexivity].
        apply search_occurs, Hnamed in E'. congruence.
Qed.

(** C7, amended: under a non-empty size argument, every listed product is a
    stored product one of whose size entries has exactly that size string;
    a product none of whose entries has it (sizes S only, filter M) is not
    among the listed documents. *)
Theorem list_products_size_filter (name : option string) (s : string)
  (lim off : Z) (db db' : Database) (r : ProductsListResponse)
  (Hsize : s <> "")
  (Hok : list_products name (Some s) lim off db = (Ok r, db')) :
  exists docs,
    pl_data r = map product_data docs
    /\ (forall d, In d docs ->
          In d (products_collection db)
          /\ exists e, In e (p_sizes d) /\ size e = s)
    /\ forall d, (forall e, In e (p_sizes d) -> size e <> s) -> ~ In d docs.
Proof.
  rewrite list_products_run in Hok.
  destruct (filter_matcher (filter_query name (Some s))) as [m |] eqn:Hm;
    [| discriminate].
  injection Hok as <- <-. eexists. split; [reflexivity |].
  assert (Hall : forall d,
             In d (limit_to lim (skip off (filter m (products_collection db)))) ->
             In d (products_collection db)
             /\ exists e, In e (p_sizes d) /\ size e = s).
  { intros d Hd. apply in_window, filter_In in Hd as [Hin Hmd].
    split; [assumption |].
    apply (size_filter_matcher name s m d Hsize Hm) in Hmd.
    apply existsb_exists in Hmd as [e [He Heq]].
    exists e. split; [assumption | now apply String.eqb_eq]. }
  split; [exact Hall |].
  intros d Hnone Hd. apply Hall in Hd as [_ [e [He Heq]]].
  now apply (Hnone e).
Qed.

(** ** Order listing *)

Lemma item_body_run (order_items : list OrderDetails) (total_amount : float)
  (item : OrderItem) (db : Database) (i : oid) :
  ObjectId (productId item) = Ok i ->
  item_body (order_items, total_amount) item db
  = (Ok match spec_resolve db item with
        | Some p =>
            (order_items ++ [spec_order_item (item, p)],
             float_add total_amount (float_mul_int (p_price p) (qty item)))
        | None => (order_items, total_amount)
        end, db).
Proof.
  intro Hi. unfold item_body, bind, lift, products_find_one, spec_resolve, ret.
  rewrite Hi. now destruct (find _ _).
Qed.

(** The inner loop appends the resolvable items to the list and adds their
    amounts to the total, whatever both held before. *)
Lemma item_loop_run (its : list OrderItem) (db : Database) :
  Forall (fun item => exists i, ObjectId (productId item) = Ok i) its ->
  forall (order_items : list OrderDetails) (total_amount : float),
    for_each its item_body (order_items, total_amount) db
    = (Ok (order_items ++ map spec_order_item (spec_resolvable db its),
           fold_left float_add
             (map (fun l => float_mul_int (p_price (snd l)) (qty (fst l)))
                (spec_resolvable db its))
             total_amount), db).
Proof.
  induction 1 as [| item its [i Hi] Hall IH]; intros order_items total_amount.
  - cbn. now rewrite app_nil_r.
  - cbn [for_each]. unfold bind at 1.
    rewrite (item_body_run _ _ _ _ i Hi).
    unfold spec_resolvable in *. cbn [flat_map].
    destruct (spec_resolve db item) as [p |].
    + rewrite IH. cbn [app map fold_left fst snd].
      now rewrite <- app_assoc.
    + rewrite IH. reflexivity.
Qed.

Lemma order_body_run (orders_data : list OrderData) (doc : order_doc)
  (db : Database) :
  Forall (fun item => exists i, ObjectId (productId item) = Ok i) (o_items doc) ->
  order_body orders_data doc db
  = (Ok (orders_data ++ [spec_order_data db doc]), db).
Proof.
  intro Hwf. unfold order_body, bind.
  rewrite (item_loop_run _ db Hwf). reflexivity.
Qed.

Lemma order_loop_run (cursor : list order_doc) (db : Database) :
  Forall (fun doc =>
            Forall (fun item => exists i, ObjectId (productId item) = Ok i)
              (o_items doc)) cursor ->
  forall orders_data : list OrderData,
    for_each cursor order_body orders_data db
    = (Ok (orders_data ++ map (spec_order_data db) cursor), db).
Proof.
  induction 1 as [| doc cursor Hdoc Hall IH]; intro orders_data.
  - cbn. now rewrite app_nil_r.
  - cbn [for_each]. unfold bind at 1.
    rewrite (order_body_run _ _ _ Hdoc), IH. cbn [map].
    now rewrite <- app_assoc.
Qed.

Lemma Forall_window {A : Type} (P : A -> Prop) (lim off : Z) (docs : list A) :
  Forall P docs -> Forall P (limit_to lim (skip off docs)).
Proof.
  intro H. apply Forall_forall. intros x Hx.
  apply in_window in Hx. revert x Hx. now apply Forall_forall.
Qed.

Lemma get_user_orders_run (user_id : string) (lim off : Z) (db : Database) :
  orders_well_formed db ->
  get_user_orders user_id lim off db
  = (Ok {| ol_data :=
             map (spec_order_data db)
               (limit_to lim (skip off (orders_of user_id db)));
           ol_page :=
             pagination off lim
               (Z.of_nat (List.length (orders_of user_id db))) |}, db).
Proof.
  intro Hwf.
  unfold get_user_orders, try_except, bind at 1, orders_count_documents,
    bind at 1, orders_find, ret at 1.
  unfold bind at 1. unfold bind at 1.
  fold (orders_of user_id db).
  rewrite order_loop_run.
  - reflexivity.
  - apply Forall_window. unfold orders_of.
    apply Forall_forall. intros doc Hdoc. apply filter_In in Hdoc as [Hdoc _].
    revert doc Hdoc. now apply Forall_forall.
Qed.

(** Both listings return the pagination block computed from their
    arguments and from the number of documents that match, whether in the
    page or not. *)
Lemma list_products_page (name size : option string) (lim off : Z)
  (db db' : Database) (r : ProductsListResponse) :
  list_products name size lim off db = (Ok r, db') ->
  exists m,
    filter_matcher (filter_query name size) = Ok m
    /\ pl_page r
       = pagination off lim
           (Z.of_nat (List.length (filter m (products_collection db)))).
Proof.
  rewrite list_products_run.
  destruct (filter_matcher (filter_query name size)) as [m |];
    [| discriminate].
  intro Hrun. injection Hrun as <- _. now exists m.
Qed.

Lemma get_user_orders_page (user_id : string) (lim off : Z)
  (db db' : Database) (r : OrdersListResponse) :
  get_user_orders user_id lim off db = (Ok r, db') ->
  ol_page r
  = pagination off lim (Z.of_nat (List.length (orders_of user_id db))).
Proof.
  unfold get_user_orders, try_except, bind at 1, orders_count_documents,
    bind at 1, orders_find, ret at 1.
  unfold bind at 1. unfold bind at 1.
  fold (orders_of user_id db).
  destruct (for_each _ order_body [] db) as [[orders_data | e] db''];
    cbn; intro Hrun; [| discriminate].
  now injection Hrun as <- _.
Qed.

(** An item that does not resolve leaves no trace in what is shown of its
    order. *)
Lemma spec_resolvable_drop (db : Database) (before after : list OrderItem)
  (item : OrderItem) :
  spec_resolve db item = None ->
  spec_resolvable db (before ++ item :: after)
  = spec_resolvable db (before ++ after).
Proof.
  intro H. unfold spec_resolvable.
  rewrite !flat_map_app. cbn. now rewrite H.
Qed.

(** C5: on a store whose orders carry well-formed ids, the listing succeeds
    and shows each order of the page with the line items whose product is
    found in the store as it is now, in order, and with their amounts
    (current price times quantity) summed from 0.0 as total; a line item
    whose product is not found is left out of both and raises no error. *)
Theorem get_user_orders_totals (user_id : string) (lim off : Z)
  (db : Database)
  (Hlimit : 1 <= lim <= 100) (Hoffset : 0 <= off)
  (Hwf : orders_well_formed db) :
  exists r,
    get_user_orders user_id lim off db = (Ok r, db)
    /\ ol_data r
       = map (spec_order_data db) (window lim off (orders_of user_id db))
    /\ forall doc,
        In doc (window lim off (orders_of user_id db)) ->
        exists shown,
          In shown (ol_data r)
          /\ od_id shown = str_oid (o_id doc)
          /\ od_items shown
             = map spec_order_item (spec_resolvable db (o_items doc))
          /\ total shown = spec_total (spec_resolvable db (o_items doc))
          /\ forall before item after,
              o_items doc = before ++ item :: after ->
              spec_resolve db item = None ->
              od_items shown
              = map spec_order_item (spec_resolvable db (before ++ after))
              /\ total shown = spec_total (spec_resolvable db (before ++ after)).
Proof.
  rewrite (get_user_orders_run _ _ _ _ Hwf).
  rewrite limit_to_window by lia.
  eexists. split; [reflexivity |]. cbn [ol_data]. split; [reflexivity |].
  intros doc Hdoc. exists (spec_order_data db doc).
  split; [now apply in_map |]. cbn.
  split; [reflexivity |]. split; [reflexivity |]. split; [reflexivity |].
  intros before item after Hitems Hnone.
  rewrite Hitems, (spec_resolvable_drop db before after item Hnone).
  split; reflexivity.
Qed.

(** ** The assumptions on the store hold of every store the handlers build *)

Lemma create_order_well_formed (now : datetime) (new_id : oid)
  (order : OrderCreate) (db : Database) :
  orders_well_formed db ->
  orders_well_formed (snd (create_order now new_id order db)).
Proof.
  intro Hwf. rewrite create_order_run.
  destruct (comprehension _ _) as [ids | e] eqn:Hids; [| exact Hwf].
  destruct (Nat.eqb _ _); [| exact Hwf].
  destruct (forallb _ _); [| exact Hwf].
  unfold orders_well_formed; cbn.
  apply Forall_app. split; [exact Hwf |].
  constructor; [| constructor]. cbn.
  apply comprehension_ok in Hids.
  induction Hids as [| item i its ids Hi Hall IH]; constructor;
    [now exists i | exact IH].
Qed.

Lemma create_product_well_formed (now : datetime) (new_id : oid)
  (product : ProductCreate) (db : Database) :
  orders_well_formed db ->
  orders_well_formed (snd (create_product now new_id product db)).
Proof.
  intro Hwf. rewrite create_product_run.
  now destruct (forallb _ _).
Qed.

Lemma create_order_unique_ids (now : datetime) (new_id : oid)
  (order : OrderCreate) (db : Database) :
  unique_product_ids db ->
  unique_product_ids (snd (create_order now new_id order db)).
Proof.
  intro Hu. rewrite create_order_run.
  destruct (comprehension _ _);
    [destruct (Nat.eqb _ _); [destruct (forallb _ _) |] |]; exact Hu.
Qed.

(** The driver generates an id that no stored product has. *)
Lemma create_product_unique_ids (now : datetime) (new_id : oid)
  (product : ProductCreate) (db : Database) :
  ~ In new_id (map p_id (products_collection db)) ->
  unique_product_ids db ->
  unique_product_ids (snd (create_product now new_id product db)).
Proof.
  intros Hfresh Hu. rewrite create_product_run.
  destruct (forallb _ _); [| exact Hu].
  unfold unique_product_ids in *; cbn.
  rewrite map_app; cbn.
  apply NoDup_app; [exact Hu | repeat constructor; intros [] |].
  intros i Hi [<- | []]. contradiction.
Qed.

(** ** The name filter ignores case on literal patterns *)

Lemma lower_lower (c : ascii) : lower (lower c) = lower c.
Proof. destruct c as [[] [] [] [] [] [] [] []]; reflexivity. Qed.

Lemma starts_with_lower (p s : string) :
  starts_with true p (lower_string s) = starts_with true p s.
Proof.
  revert s. induction p as [| a p IH]; intros [| b s]; cbn; try reflexivity.
  unfold char_eqb. now rewrite lower_lower, IH.
Qed.

Lemma search_lower (p s : string) :
  search true p (lower_string s) = search true p s.
Proof.
  induction s as [| b s IH].
  - reflexivity.
  - cbn [search lower_string]. rewrite IH.
    now rewrite <- (starts_with_lower p (String b s)).
Qed.

(** Two products whose names differ by the case of letters only are both
    matched, or both not, by a name filter of letters and digits. *)
Lemma name_filter_ignores_case (n : string) (m : product_doc -> bool)
  (d d' : product_doc) :
  all_chars is_alnum n = true ->
  filter_matcher (filter_query (Some n) None) = Ok m ->
  lower_string (p_name d) = lower_string (p_name d') ->
  m d = m d'.
Proof.
  intros Hlit Hm Hnames. unfold filter_query in Hm.
  destruct n as [| c n]; cbn [truthy app] in Hm.
  - cbn in Hm. now injection Hm as <-.
  - cbn [filter_matcher condition_matcher] in Hm. unfold mongo_regex in Hm.
    rewrite Hlit in Hm. cbn in Hm. injection Hm as <-.
    rewrite <- (search_lower _ (p_name d)), <- (search_lower _ (p_name d')).
    now rewrite Hnames.
Qed.

End Properties.

(** * Further properties of the handlers *)

Section Composition.

Context {runtime : Runtime}.

(** ** When an order is accepted *)

Lemma found_all_when_known (db : Database) (ids : list oid) :
  unique_product_ids db -> NoDup ids ->
  incl ids (map p_id (products_collection db)) ->
  List.length (found_products db ids) = List.length ids.
Proof.
  intros Hu Hnd Hincl. apply Nat.le_antisymm.
  - rewrite <- (length_map p_id).
    apply NoDup_incl_length; [now apply found_products_unique |].
    intros i Hi. now apply found_products_ids in Hi.
  - rewrite <- (length_map p_id (found_products db ids)).
    apply NoDup_incl_length; [assumption |].
    intros i Hi. apply found_products_ids. split; [now apply Hincl | assumption].
Qed.

Lemma NoDup_oid_dec (ids : list oid) : {NoDup ids} + {~ NoDup ids}.
Proof.
  induction ids as [| i ids [IH | IH]].
  - left. constructor.
  - destruct (in_dec oid_eq_dec i ids) as [Hin | Hnot].
    + right. intro H. apply NoDup_cons_iff in H as [H _]. contradiction.
    + left. now constructor.
  - right. intro H. apply NoDup_cons_iff in H as [_ H]. contradiction.
Qed.

(** An exception of the comprehension is that of one of its elements. *)
Lemma comprehension_raised {A B : Type} (f : A -> result B) (xs : list A)
  (e : exn) :
  comprehension f xs = Raise e -> exists x, In x xs /\ f x = Raise e.
Proof.
  induction xs as [| x xs IH]; cbn; [discriminate |].
  destruct (f x) as [y | e'] eqn:Hx.
  - destruct (comprehension f xs) as [ys | e'']; [discriminate |].
    intro H. injection H as ->. destruct IH as [x' [Hin Hx']]; eauto.
  - intro H. injection H as ->. eauto.
Qed.

Lemma fits_int64_storable (n : Z) : fits_int64 n = true <-> storable n.
Proof. unfold fits_int64, storable. lia. Qed.

Lemma all_fit_storable {A : Type} (f : A -> Z) (l : list A) :
  forallb (fun x => fits_int64 (f x)) l = true
  <-> Forall (fun x => storable (f x)) l.
Proof.
  rewrite forallb_forall, Forall_forall.
  split; intros H x Hx; apply fits_int64_storable; now apply H.
Qed.

(** What an accepted request is known to satisfy. *)
Lemma create_order_accepted (now : datetime) (new_id : oid)
  (order : OrderCreate) (db db' : Database) (r : OrderResponse) :
  unique_product_ids db ->
  create_order now new_id order db = (Ok r, db') ->
  exists ids,
    comprehension (fun item => ObjectId (productId item)) (items order) = Ok ids
    /\ NoDup ids
    /\ incl ids (map p_id (products_collection db))
    /\ forallb (fun item => fits_int64 (qty item)) (items order) = true.
Proof.
  intros Hunique Hrun. rewrite create_order_run in Hrun.
  destruct (comprehension _ _) as [ids | e]; [| destruct e; discriminate].
  destruct (Nat.eqb_spec (List.length (found_products db ids)) (List.length ids))
    as [Hlen | Hlen]; [| discriminate].
  destruct (forallb _ _); [| discriminate].
  exists ids. split; [reflexivity |]. split; [| split; [| reflexivity]].
  - destruct (NoDup_oid_dec ids) as [Hnd | Hdup]; [assumption |].
    pose proof (found_fewer_when_duplicate db ids Hunique Hdup). lia.
  - intros i Hi.
    destruct (in_dec oid_eq_dec i (map p_id (products_collection db)))
      as [Hin | Hmiss]; [assumption |].
    pose proof (found_fewer_when_missing db ids i Hunique Hi Hmiss). lia.
Qed.

Lemma create_order_products (now : datetime) (new_id : oid)
  (order : OrderCreate) (db : Database) :
  products_collection (snd (create_order now new_id order db))
  = products_collection db.
Proof.
  rewrite create_order_run.
  destruct (comprehension _ _);
    [destruct (Nat.eqb _ _); [destruct (forallb _ _) |] |]; reflexivity.
Qed.

(** On a store with unique product ids, [create_order] accepts a request
    exactly when all its productIds are well-formed, no two of them denote
    the same id, each is the id of a stored product, and every quantity is
    an integer that the store can hold. *)
Theorem create_order_accepts_iff (now : datetime) (new_id : oid)
  (order : OrderCreate) (db : Database) (Hunique : unique_product_ids db) :
  (exists r db', create_order now new_id order db = (Ok r, db'))
  <-> (exists ids,
        comprehension (fun item => ObjectId (productId item)) (items order)
        = Ok ids
        /\ NoDup ids
        /\ incl ids (map p_id (products_collection db)))
      /\ Forall (fun item => storable (qty item)) (items order).
Proof.
  rewrite <- all_fit_storable. split.
  - intros [r [db' Hrun]].
    destruct (create_order_accepted now new_id order db db' r Hunique Hrun)
      as [ids [Hids [Hnd [Hincl Hfit]]]].
    split; [now exists ids | exact Hfit].
  - rewrite create_order_run. intros [[ids [-> [Hnd Hincl]]] ->].
    rewrite (found_all_when_known db ids Hunique Hnd Hincl), Nat.eqb_refl.
    eauto.
Qed.

(** [create_order] never touches the products; it either appends one order
    and returns its id, or raises and leaves the store as it was. *)
Theorem create_order_store_effect (now : datetime) (new_id : oid)
  (order : OrderCreate) (db : Database) :
  products_collection (snd (create_order now new_id order db))
  = products_collection db
  /\ match fst (create_order now new_id order db) with
     | Ok r =>
         id r = str_oid new_id
         /\ orders_collection (snd (create_order now new_id order db))
            = orders_collection db ++ [inserted_order now new_id order]
     | Raise _ => snd (create_order now new_id order db) = db
     end.
Proof.
  rewrite create_order_run.
  destruct (comprehension _ _) as [ids | e].
  - destruct (Nat.eqb _ _); [destruct (forallb _ _) |]; cbn; repeat split.
  - destruct e; cbn; split; reflexivity.
Qed.

(** ** From a created product to an order *)

Lemma fromhex_hex_byte (b : ascii) (rest : string) :
  fromhex (String (hexdigit (N_of_ascii b / 16))
             (String (hexdigit (N_of_ascii b mod 16)) rest))
  = match fromhex rest with
    | Some bytes => Some (String b bytes)
    | None => None
    end.
Proof. destruct b as [[] [] [] [] [] [] [] []]; reflexivity. Qed.

Lemma fromhex_hexlify (bytes : string) : fromhex (hexlify bytes) = Some bytes.
Proof.
  induction bytes as [| b bytes IH]; [reflexivity |].
  cbn [hexlify]. now rewrite fromhex_hex_byte, IH.
Qed.

Lemma length_hexlify (bytes : string) :
  String.length (hexlify bytes) = (2 * String.length bytes)%nat.
Proof.
  induction bytes as [| b bytes IH]; [reflexivity |].
  cbn [hexlify String.length]. rewrite IH. lia.
Qed.

(** [ObjectId(str(i)) == i] for a 12-byte id. *)
Lemma ObjectId_str_oid (i : oid) :
  String.length (binary i) = 12%nat -> ObjectId (str_oid i) = Ok i.
Proof.
  intro Hlen. unfold ObjectId, str_oid.
  rewrite length_hexlify, Hlen, fromhex_hexlify. now destruct i.
Qed.

(** The id that [create_product] returns is accepted by [create_order]: an
    order of the product just created, for any user, is inserted, the
    quantities of the product and of the order being integers that the
    store can hold. *)
Theorem created_product_can_be_ordered (now later : datetime)
  (new_id new_order_id : oid) (product : ProductCreate) (user : string)
  (ordered : Z) (db : Database)
  (Hbytes : String.length (binary new_id) = 12%nat)
  (Hunique : unique_product_ids db)
  (Hfresh : ~ In new_id (map p_id (products_collection db)))
  (Hsizes : Forall (fun s => storable (quantity s)) (pc_sizes product))
  (Hordered : storable ordered) :
  exists r db1 db2,
    create_product now new_id product db = (Ok r, db1)
    /\ create_order later new_order_id
         {| userId := user;
            items := [ {| productId := id r; qty := ordered |} ] |} db1
       = (Ok {| id := str_oid new_order_id |}, db2)
    /\ orders_collection db2
       = orders_collection db
         ++ [ {| o_id := new_order_id; o_userId := user;
                 o_items := [ {| productId := str_oid new_id; qty := ordered |} ];
                 o_created_at := later; o_status := "created" |} ].
Proof.
  pose proof (create_product_unique_ids now new_id product db Hfresh Hunique)
    as Hunique1.
  apply all_fit_storable in Hsizes.
  apply fits_int64_storable in Hordered.
  rewrite create_product_run in *. rewrite Hsizes in *. cbn [snd] in Hunique1.
  eexists. eexists. eexists. split; [reflexivity |].
  rewrite create_order_run. cbn [items productId id comprehension qty forallb].
  rewrite (ObjectId_str_oid new_id Hbytes), Hordered.
  rewrite found_all_when_known.
  - cbn. split; reflexivity.
  - exact Hunique1.
  - repeat constructor. intros [].
  - intros i [<- | []]. cbn. rewrite map_app. apply in_or_app. right. now left.
Qed.

(** ** What the order listing returns, in every case *)

Lemma first_malformed_app (its its' : list OrderItem) :
  first_malformed (its ++ its')
  = match first_malformed its with
    | Some s => Some s
    | None => first_malformed its'
    end.
Proof.
  induction its as [| item its IH]; cbn; [reflexivity |].
  now destruct (ObjectId (productId item)).
Qed.

Lemma first_malformed_none (its : list OrderItem) :
  first_malformed its = None
  <-> Forall (fun item => exists i, ObjectId (productId item) = Ok i) its.
Proof.
  induction its as [| item its IH]; cbn.
  - split; [constructor | reflexivity].
  - destruct (ObjectId (productId item)) as [i | e] eqn:Hi; split; intro H.
    + constructor; [now exists i | now apply IH].
    + apply IH. now inversion H.
    + discriminate.
    + inversion H as [| ? ? [i Hi'] _]. congruence.
Qed.

Lemma item_loop_outcome (its : list OrderItem) (db : Database)
  (order_items : list OrderDetails) (total_amount : float) :
  for_each its item_body (order_items, total_amount) db
  = (match first_malformed its with
     | None =>
         Ok (order_items ++ map spec_order_item (spec_resolvable db its),
             fold_left float_add
               (map (fun l => float_mul_int (p_price (snd l)) (qty (fst l)))
                  (spec_resolvable db its))
               total_amount)
     | Some s => Raise (InvalidId s)
     end, db).
Proof.
  revert order_items total_amount.
  induction its as [| item its IH]; intros order_items total_amount.
  - cbn. now rewrite app_nil_r.
  - cbn [for_each first_malformed]. unfold bind at 1.
    destruct (ObjectId (productId item)) as [i | e] eqn:Hi.
    + rewrite (item_body_run _ _ _ _ i Hi).
      unfold spec_resolvable in *. cbn [flat_map].
      destruct (spec_resolve db item) as [p |]; rewrite IH;
        destruct (first_malformed its); try reflexivity.
      cbn [app map fold_left fst snd]. now rewrite <- app_assoc.
    + unfold item_body, bind, lift. rewrite Hi.
      apply ObjectId_raise in Hi. now subst e.
Qed.

Lemma order_loop_outcome (cursor : list order_doc) (db : Database)
  (orders_data : list OrderData) :
  for_each cursor order_body orders_data db
  = (match first_malformed (flat_map o_items cursor) with
     | None => Ok (orders_data ++ map (spec_order_data db) cursor)
     | Some s => Raise (InvalidId s)
     end, db).
Proof.
  revert orders_data.
  induction cursor as [| doc cursor IH]; intro orders_data.
  - cbn. now rewrite app_nil_r.
  - cbn [for_each flat_map]. rewrite first_malformed_app.
    unfold bind at 1, order_body, bind at 1.
    rewrite item_loop_outcome.
    destruct (first_malformed (o_items doc)); [reflexivity |].
    unfold ret at 1. rewrite IH.
    destruct (first_malformed (flat_map o_items cursor)); [reflexivity |].
    cbn [map]. now rewrite <- app_assoc.
Qed.

(** The listing of a user's orders answers 500, with the [InvalidId] error
    of the first malformed productId, when an order of the requested page
    carries one; otherwise it returns the orders of the page, each with its
    resolvable items and their total.  Orders outside the page and orders of
    other users have no influence, and the store is left as it was. *)
Theorem get_user_orders_outcome (user_id : string) (lim off : Z)
  (db : Database) :
  get_user_orders user_id lim off db
  = (match first_malformed (flat_map o_items (page_of user_id lim off db)) with
     | None =>
         Ok {| ol_data := map (spec_order_data db) (page_of user_id lim off db);
               ol_page :=
                 pagination off lim
                   (Z.of_nat (List.length (orders_of user_id db))) |}
     | Some s => Raise (HTTPException 500 (Str (InvalidId s)))
     end, db).
Proof.
  unfold get_user_orders, try_except, bind at 1, orders_count_documents,
    bind at 1, orders_find, ret at 1.
  unfold bind at 1. unfold bind at 1.
  fold (orders_of user_id db). fold (page_of user_id lim off db).
  rewrite order_loop_outcome.
  now destruct (first_malformed _).
Qed.

(** Neither listing changes the store, whatever it returns. *)
Theorem listings_leave_the_store (name size : option string)
  (user_id : string) (lim off : Z) (db : Database) :
  snd (list_products name size lim off db) = db
  /\ snd (get_user_orders user_id lim off db) = db.
Proof.
  rewrite list_products_run, get_user_orders_outcome.
  destruct (filter_matcher (filter_query name size)) as [m | e];
    destruct (first_malformed _) as [s |]; split; reflexivity.
Qed.

(** ** Whose orders are listed, and with which lines *)

Lemma spec_resolvable_lines (db : Database) (its : list OrderItem) :
  exists kept,
    map fst (spec_resolvable db its) = kept
    /\ incl kept its /\ (List.length kept <= List.length its)%nat.
Proof.
  eexists. split; [reflexivity |].
  unfold spec_resolvable.
  induction its as [| item its [IHin IHlen]]; cbn.
  - split; [intros x [] | lia].
  - destruct (spec_resolve db item); cbn.
    + split; [| lia]. intros x [<- | Hx]; [now left | right; now apply IHin].
    + split; [| lia]. intros x Hx. right. now apply IHin.
Qed.

Lemma shown_lines_spec (db : Database) (doc : order_doc) :
  shown_lines (spec_order_data db doc)
  = stored_lines (map fst (spec_resolvable db (o_items doc))).
Proof.
  unfold shown_lines, stored_lines, spec_order_data; cbn.
  now rewrite !map_map.
Qed.

(** Every order that the listing of a user shows is a stored order of that
    user, under its own id, and each line shown for it is one of its stored
    lines, with the productId as it was sent and its quantity; no line is
    added. *)
Theorem get_user_orders_shows_own_orders (user_id : string) (lim off : Z)
  (db db' : Database) (r : OrdersListResponse)
  (Hok : get_user_orders user_id lim off db = (Ok r, db')) :
  forall shown, In shown (ol_data r) ->
    exists doc,
      In doc (orders_collection db)
      /\ o_userId doc = user_id
      /\ od_id shown = str_oid (o_id doc)
      /\ incl (shown_lines shown) (stored_lines (o_items doc))
      /\ (List.length (od_items shown) <= List.length (o_items doc))%nat.
Proof.
  rewrite get_user_orders_outcome in Hok.
  destruct (first_malformed _); [discriminate |].
  injection Hok as <- _. cbn [ol_data].
  intros shown Hshown. apply in_map_iff in Hshown as [doc [<- Hdoc]].
  apply in_window in Hdoc. unfold orders_of in Hdoc.
  apply filter_In in Hdoc as [Hdoc Huser]. apply String.eqb_eq in Huser.
  exists doc. split; [assumption | split; [assumption | split; [reflexivity |]]].
  destruct (spec_resolvable_lines db (o_items doc)) as [kept [Hkept [Hin Hlen]]].
  rewrite shown_lines_spec, Hkept. split.
  - intros line Hline. unfold stored_lines in *.
    apply in_map_iff in Hline as [item [<- Hitem]].
    apply (in_map (fun item => (productId item, qty item))). now apply Hin.
  - cbn. rewrite length_map. rewrite <- Hkept, length_map in Hlen. exact Hlen.
Qed.

(** ** From an accepted order to its listing *)

Lemma find_known (docs : list product_doc) (i : oid) :
  In i (map p_id docs) -> find (fun d => oid_eqb (p_id d) i) docs <> None.
Proof.
  induction docs as [| d docs IH]; cbn; [intros [] |].
  intros [<- | Hin].
  - replace (oid_eqb (p_id d) (p_id d)) with true
      by (symmetry; now apply oid_eqb_eq). discriminate.
  - destruct (oid_eqb (p_id d) i); [discriminate | now apply IH].
Qed.

Lemma find_some_app {A : Type} (f : A -> bool) (l l' : list A) :
  find f l <> None -> find f (l ++ l') <> None.
Proof.
  induction l as [| a l IH]; cbn; [congruence |].
  destruct (f a); [discriminate | exact IH].
Qed.

Lemma all_resolve_lines (db : Database) (its : list OrderItem) :
  Forall (fun item => spec_resolve db item <> None) its ->
  map fst (spec_resolvable db its) = its.
Proof.
  unfold spec_resolvable.
  induction 1 as [| item its Hitem Hall IH]; cbn; [reflexivity |].
  destruct (spec_resolve db item); [| congruence]. cbn. now rewrite IH.
Qed.

(** Resolution depends on the products only. *)
Lemma spec_resolvable_products (db db' : Database) (its : list OrderItem) :
  products_collection db = products_collection db' ->
  spec_resolvable db its = spec_resolvable db' its.
Proof.
  intro H. unfold spec_resolvable, spec_resolve. now rewrite H.
Qed.

(** The items of an accepted order all refer to stored products. *)
Lemma accepted_items_resolve (now : datetime) (new_id : oid)
  (order : OrderCreate) (db db' : Database) (r : OrderResponse) :
  unique_product_ids db ->
  create_order now new_id order db = (Ok r, db') ->
  Forall (fun item => spec_resolve db item <> None) (items order).
Proof.
  intros Hunique Hok.
  destruct (create_order_accepted now new_id order db db' r Hunique Hok)
    as [ids [Hids [_ [Hincl _]]]].
  apply comprehension_ok in Hids.
  induction Hids as [| item i its ids Hi Hall IH]; constructor.
  - unfold spec_resolve. rewrite Hi. apply find_known, Hincl. now left.
  - apply IH. intros j Hj. apply Hincl. now right.
Qed.

(** An accepted order is shown by the listing of its user, on every page
    that covers its rank among the orders of that user: under the id that
    [create_order] returned and with all its lines, none being dropped. *)
Theorem created_order_is_listed (now : datetime) (new_id : oid)
  (order : OrderCreate) (db db1 : Database) (r : OrderResponse) (lim off : Z)
  (Hok : create_order now new_id order db = (Ok r, db1))
  (Hunique : unique_product_ids db) (Hwf : orders_well_formed db)
  (Hlimit : 1 <= lim)
  (Hrank : 0 <= off <= Z.of_nat (List.length (orders_of (userId order) db))
           /\ Z.of_nat (List.length (orders_of (userId order) db)) < off + lim) :
  exists resp shown,
    get_user_orders (userId order) lim off db1 = (Ok resp, db1)
    /\ In shown (ol_data resp)
    /\ od_id shown = id r
    /\ shown_lines shown = stored_lines (items order).
Proof.
  pose proof (accepted_items_resolve now new_id order db db1 r Hunique Hok)
    as Hresolve.
  pose proof (create_order_well_formed now new_id order db Hwf) as Hwf1.
  rewrite Hok in Hwf1. cbn [snd] in Hwf1.
  rewrite create_order_run in Hok.
  destruct (comprehension _ _) as [ids | e]; [| destruct e; discriminate].
  destruct (Nat.eqb _ _); [| discriminate].
  destruct (forallb _ _); [| discriminate].
  injection Hok as <- <-.
  rewrite (get_user_orders_run _ _ _ _ Hwf1), limit_to_window by lia.
  eexists. exists (spec_order_data
                     {| products_collection := products_collection db;
                        orders_collection :=
                          orders_collection db ++ [inserted_order now new_id order] |}
                     (inserted_order now new_id order)).
  split; [reflexivity |]. cbn [ol_data]. split; [| split].
  - apply in_map. unfold orders_of; cbn [orders_collection].
    rewrite filter_app. cbn [filter inserted_order o_userId].
    rewrite String.eqb_refl. apply last_in_window; [exact (proj1 Hrank) |].
    exact (proj2 Hrank).
  - reflexivity.
  - rewrite shown_lines_spec. cbn [inserted_order o_items].
    rewrite (spec_resolvable_products _ db) by reflexivity.
    now rewrite (all_resolve_lines _ _ Hresolve).
Qed.

(** ** The stores that the handlers build *)

(** In every store built from the empty one by the create handlers, the
    product ids are unique, the productIds in the orders are well-formed and
    refer to stored products, and every order has the status "created". *)
Theorem reachable_invariants (db : Database) (Hreach : reachable db) :
  unique_product_ids db
  /\ orders_well_formed db
  /\ orders_resolve db
  /\ Forall (fun doc => o_status doc = "created") (orders_collection db).
Proof.
  induction Hreach
    as [| now new_id product db Hreach [Hu [Hwf [Hres Hst]]] Hbytes Hfresh
        | now new_id order db Hreach [Hu [Hwf [Hres Hst]]]].
  - repeat split; constructor.
  - split; [now apply create_product_unique_ids |].
    split; [now apply create_product_well_formed |].
    rewrite create_product_run.
    destruct (forallb _ _); cbn [snd]; [| split; assumption].
    split; [| exact Hst].
    unfold orders_resolve in *; cbn [orders_collection].
    eapply Forall_impl; [| exact Hres]. intros doc Hdoc.
    eapply Forall_impl; [| exact Hdoc]. intros item Hitem.
    unfold spec_resolve in *; cbn [products_collection].
    destruct (ObjectId (productId item)); [| assumption].
    now apply find_some_app.
  - split; [now apply create_order_unique_ids |].
    split; [now apply create_order_well_formed |].
    destruct (create_order now new_id order db) as [[r | e] db1] eqn:Hrun.
    + pose proof (accepted_items_resolve _ _ _ _ _ _ Hu Hrun) as Hitems.
      rewrite create_order_run in Hrun.
      destruct (comprehension _ _) as [ids | e]; [| destruct e; discriminate].
      destruct (Nat.eqb _ _); [| discriminate].
      destruct (forallb _ _); [| discriminate].
      injection Hrun as _ <-. cbn [snd]. split.
      * unfold orders_resolve; cbn [orders_collection].
        apply Forall_app. split; [exact Hres |].
        constructor; [exact Hitems | constructor].
      * cbn [orders_collection]. apply Forall_app. split; [exact Hst |].
        constructor; [reflexivity | constructor].
    + apply create_order_error_inserts_nothing in Hrun. subst db1.
      cbn [snd]. split; assumption.
Qed.

(** On such a store the listing of orders never fails and shows, for every
    order of the page, all its lines. *)
Theorem reachable_listing_is_complete (db : Database) (user_id : string)
  (lim off : Z) (Hreach : reachable db) :
  exists r,
    get_user_orders user_id lim off db = (Ok r, db)
    /\ Forall2 (fun shown doc =>
                  od_id shown = str_oid (o_id doc)
                  /\ shown_lines shown = stored_lines (o_items doc))
         (ol_data r) (page_of user_id lim off db).
Proof.
  destruct (reachable_invariants db Hreach) as [_ [Hwf [Hres _]]].
  rewrite (get_user_orders_run _ _ _ _ Hwf).
  eexists. split; [reflexivity |]. cbn [ol_data]. fold (page_of user_id lim off db).
  assert (Hpage : Forall (fun doc =>
                            Forall (fun item => spec_resolve db item <> None)
                              (o_items doc)) (page_of user_id lim off db)).
  { apply Forall_window. unfold orders_of.
    apply Forall_forall. intros doc Hdoc. apply filter_In in Hdoc as [Hdoc _].
    revert doc Hdoc. now apply Forall_forall. }
  induction Hpage as [| doc docs Hdoc Hall IH]; cbn [map]; constructor;
    [| exact IH].
  split; [reflexivity |].
  now rewrite shown_lines_spec, (all_resolve_lines _ _ Hdoc).
Qed.

(** ** Pages *)

Lemma window_length {A : Type} (lim off : Z) (docs : list A) :
  0 <= lim -> 0 <= off ->
  Z.of_nat (List.length (window lim off docs))
  = Z.min lim (Z.max 0 (Z.of_nat (List.length docs) - off)).
Proof.
  intros Hl Ho. unfold window. rewrite length_firstn, length_skipn. lia.
Qed.

Lemma firstn_plus {A : Type} (n m : nat) (l : list A) :
  firstn n l ++ firstn m (skipn n l) = firstn (n + m) l.
Proof.
  revert l. induction n as [| n IH]; intros [| a l]; cbn;
    try reflexivity.
  - now rewrite firstn_nil.
  - now rewrite IH.
Qed.

Lemma window_next {A : Type} (lim off : Z) (docs : list A) :
  0 <= lim -> 0 <= off ->
  window lim off docs ++ window lim (off + lim) docs
  = window (lim + lim) off docs.
Proof.
  intros Hl Ho. unfold window.
  rewrite !Z2Nat.inj_add by lia.
  rewrite (Nat.add_comm (Z.to_nat off)), <- skipn_skipn.
  apply firstn_plus.
Qed.

Lemma matching_accepted (name size : option string) (db : Database)
  (m : product_doc -> bool) :
  filter_matcher (filter_query name size) = Ok m ->
  matching name size db = filter m (products_collection db).
Proof. intro H. unfold matching. now rewrite H. Qed.

(** A page of products holds [limit] documents, or all that remain after
    [offset] when these are fewer; its [next] is absent exactly when the
    page reaches the end of the matching products, so that a page with a
    [next] is full. *)
Theorem list_products_page_size (name size : option string) (lim off : Z)
  (db db' : Database) (r : ProductsListResponse)
  (Hok : list_products name size lim off db = (Ok r, db'))
  (Hlimit : 1 <= lim) (Hoffset : 0 <= off) :
  let total := Z.of_nat (List.length (matching name size db)) in
  let shown := Z.of_nat (List.length (pl_data r)) in
  shown = Z.min lim (Z.max 0 (total - off))
  /\ (next (pl_page r) = None <-> total <= off + shown)
  /\ (next (pl_page r) <> None -> shown = lim).
Proof.
  rewrite list_products_run in Hok.
  destruct (filter_matcher (filter_query name size)) as [m |] eqn:Hm;
    [| discriminate].
  injection Hok as <- _. cbn [pl_data pl_page].
  rewrite (matching_accepted _ _ _ _ Hm), limit_to_window, length_map by lia.
  rewrite window_length by lia.
  unfold pagination; cbn [next].
  destruct (Z.ltb_spec (off + lim) (Z.of_nat (List.length (filter m (products_collection db)))));
    repeat split; intros; try discriminate; try congruence; lia.
Qed.

(** The same for a page of orders, counted among the orders of the user. *)
Theorem get_user_orders_page_size (user_id : string) (lim off : Z)
  (db db' : Database) (r : OrdersListResponse)
  (Hok : get_user_orders user_id lim off db = (Ok r, db'))
  (Hlimit : 1 <= lim) (Hoffset : 0 <= off) :
  let total := Z.of_nat (List.length (orders_of user_id db)) in
  let shown := Z.of_nat (List.length (ol_data r)) in
  shown = Z.min lim (Z.max 0 (total - off))
  /\ (next (ol_page r) = None <-> total <= off + shown)
  /\ (next (ol_page r) <> None -> shown = lim).
Proof.
  rewrite get_user_orders_outcome in Hok.
  destruct (first_malformed _); [discriminate |].
  injection Hok as <- _. cbn [ol_data ol_page].
  unfold page_of. rewrite limit_to_window, length_map by lia.
  rewrite window_length by lia.
  unfold pagination; cbn [next].
  destruct (Z.ltb_spec (off + lim) (Z.of_nat (List.length (orders_of user_id db))));
    repeat split; intros; try discriminate; try congruence; lia.
Qed.

(** The page that [next] announces starts where this one ends: the two
    pages together are the products from [offset] on, up to twice [limit],
    none skipped and none repeated, and the [previous] of the second page is
    the offset of the first. *)
Theorem list_products_next_page (name size : option string) (lim off : Z)
  (db db1 db2 : Database) (r1 r2 : ProductsListResponse)
  (Hfirst : list_products name size lim off db = (Ok r1, db1))
  (Hsecond : list_products name size lim (off + lim) db = (Ok r2, db2))
  (Hlimit : 1 <= lim) (Hoffset : 0 <= off) :
  pl_data r1 ++ pl_data r2
  = map product_data (window (lim + lim) off (matching name size db))
  /\ (next (pl_page r1) = None
      \/ next (pl_page r1) = Some (str_int (off + lim)))
  /\ previous (pl_page r2) = Some off.
Proof.
  rewrite list_products_run in Hfirst, Hsecond.
  destruct (filter_matcher (filter_query name size)) as [m |] eqn:Hm;
    [| discriminate].
  injection Hfirst as <- _. injection Hsecond as <- _.
  cbn [pl_data pl_page]. rewrite (matching_accepted _ _ _ _ Hm).
  rewrite !limit_to_window, <- map_app, window_next by lia.
  split; [reflexivity |]. unfold pagination; cbn [next previous]. split.
  - destruct (off + lim <? _); auto.
  - destruct (Z.ltb_spec 0 (off + lim)); [| lia].
    f_equal. lia.
Qed.

(** ** Product creation and patterns *)

(** [create_product] checks nothing of the name, the price and the sizes.
    When every size quantity is an integer that the store can hold, the
    product is inserted: the orders are left alone and the product is put
    last, so that under every filter the products that matched before keep
    their ranks and the new one, if it matches, follows them.  When some
    quantity is not, the request is answered 500 and nothing is stored. *)
Theorem create_product_appends (now : datetime) (new_id : oid)
  (product : ProductCreate) (db : Database) (name wanted : option string) :
  let doc :=
    {| p_id := new_id; p_name := pc_name product;
       p_price := pc_price product; p_sizes := pc_sizes product;
       p_created_at := now |} in
  (Forall (fun s => storable (quantity s)) (pc_sizes product) ->
   exists db1,
     create_product now new_id product db = (Ok {| id := str_oid new_id |}, db1)
     /\ orders_collection db1 = orders_collection db
     /\ matching name wanted db1
        = matching name wanted db
          ++ matching name wanted
               {| products_collection := [doc]; orders_collection := [] |})
  /\ (~ Forall (fun s => storable (quantity s)) (pc_sizes product) ->
      create_product now new_id product db
      = (Raise (HTTPException 500 (Str OverflowError)), db)).
Proof.
  intro doc. rewrite create_product_run. split; intro Hsizes.
  - apply all_fit_storable in Hsizes. rewrite Hsizes.
    eexists. split; [reflexivity |]. split; [reflexivity |].
    unfold matching; cbn [products_collection].
    destruct (filter_matcher (filter_query name wanted)); [| reflexivity].
    apply filter_app.
  - destruct (forallb _ (pc_sizes product)) eqn:Hfit; [| reflexivity].
    apply all_fit_storable in Hfit. contradiction.
Qed.

(** The name argument is used as a pattern: when the store rejects it, the
    listing answers 500 with the failure of the operation, whatever the
    other arguments and the store. *)
Theorem list_products_rejected_pattern (name size : option string)
  (pattern : string) (lim off : Z) (db : Database)
  (Hname : truthy name = Some pattern)
  (Hrejected : mongo_regex pattern "i" = None) :
  list_products name size lim off db
  = (Raise (HTTPException 500 (Str (OperationFailure pattern))), db).
Proof.
  rewrite list_products_run. unfold filter_query. rewrite Hname.
  cbn [app filter_matcher condition_matcher]. now rewrite Hrejected.
Qed.

(** ** The listing routes *)

(** Whatever the query parameters, a response of the product route holds at
    most 100 products, and no more than the limit it reports, which lies
    between 1 and 100; a [previous] offset is never negative. *)
Theorem route_list_products_bounds (name size : option string)
  (l o : option Z) (db db' : Database) (r : ProductsListResponse)
  (Hok : route_list_products name size l o db = (Ok r, db')) :
  1 <= limit (pl_page r) <= 100
  /\ Z.of_nat (List.length (pl_data r)) <= limit (pl_page r)
  /\ match previous (pl_page r) with
     | Some p => 0 <= p
     | None => True
     end.
Proof.
  unfold route_list_products, bind, lift in Hok.
  destruct (validate_query limit_query l) as [lim |] eqn:Hl; [| discriminate].
  destruct (validate_query offset_query o) as [off |] eqn:Ho; [| discriminate].
  assert (Hlim : 1 <= lim <= 100).
  { unfold validate_query, limit_query, bound_holds in Hl; cbn in Hl.
    destruct l as [v |]; [| injection Hl as <-; lia].
    destruct (Z.leb_spec 1 v); cbn in Hl; [| discriminate].
    rewrite Z.geb_leb in Hl.
    destruct (Z.leb_spec v 100); [| discriminate].
    injection Hl as <-. lia. }
  assert (Hoff : 0 <= off).
  { unfold validate_query, offset_query, bound_holds in Ho; cbn in Ho.
    destruct o as [v |]; [| injection Ho as <-; lia].
    destruct (Z.leb_spec 0 v); cbn in Ho; [| discriminate].
    injection Ho as <-. lia. }
  rewrite list_products_run in Hok.
  destruct (filter_matcher (filter_query name size)) as [m |]; [| discriminate].
  injection Hok as <- _. cbn [pl_data pl_page limit previous pagination].
  rewrite limit_to_window, length_map, window_length by lia.
  split; [exact Hlim | split; [lia |]].
  destruct (0 <? off); [lia | exact I].
Qed.

(** ** What a creation leaves as it was *)

Lemma find_app_found {A : Type} (f : A -> bool) (l l' : list A) (a : A) :
  find f l = Some a -> find f (l ++ l') = Some a.
Proof.
  induction l as [| b l IH]; cbn; [discriminate |].
  destruct (f b); [trivial | exact IH].
Qed.

Lemma spec_order_data_products (db db' : Database) (doc : order_doc) :
  products_collection db = products_collection db' ->
  spec_order_data db doc = spec_order_data db' doc.
Proof.
  intro H. unfold spec_order_data.
  now rewrite (spec_resolvable_products db db' _ H).
Qed.

(** An order request, accepted or not, changes no listing of products and
    no listing of the orders of another user. *)
Theorem create_order_leaves_other_listings (now : datetime) (new_id : oid)
  (order : OrderCreate) (db : Database) (name size : option string)
  (user_id : string) (lim off : Z) (Hother : user_id <> userId order) :
  let db1 := snd (create_order now new_id order db) in
  fst (list_products name size lim off db1)
  = fst (list_products name size lim off db)
  /\ fst (get_user_orders user_id lim off db1)
     = fst (get_user_orders user_id lim off db).
Proof.
  intro db1.
  assert (Hproducts : products_collection db1 = products_collection db)
    by apply create_order_products.
  assert (Horders : orders_of user_id db1 = orders_of user_id db).
  { subst db1. rewrite create_order_run.
    destruct (comprehension _ _);
      [destruct (Nat.eqb _ _); [destruct (forallb _ _) |] |];
      try reflexivity.
    unfold orders_of; cbn [snd orders_collection].
    rewrite filter_app; cbn [filter inserted_order o_userId].
    destruct (String.eqb_spec (userId order) user_id); [congruence |].
    apply app_nil_r. }
  split.
  - rewrite !list_products_run, Hproducts.
    now destruct (filter_matcher (filter_query name size)).
  - rewrite !get_user_orders_outcome. unfold page_of. rewrite Horders.
    destruct (first_malformed _); [reflexivity |]. cbn [fst].
    f_equal. f_equal. apply map_ext. intro doc.
    now apply spec_order_data_products.
Qed.

Lemma spec_resolvable_more_products (db : Database)
  (more : list product_doc) (orders : list order_doc)
  (its : list OrderItem) :
  Forall (fun item => spec_resolve db item <> None) its ->
  spec_resolvable
    {| products_collection := products_collection db ++ more;
       orders_collection := orders |} its
  = spec_resolvable db its.
Proof.
  unfold spec_resolvable.
  induction 1 as [| item its Hitem Hall IH]; cbn [flat_map]; [reflexivity |].
  rewrite IH. f_equal.
  unfold spec_resolve in *; cbn [products_collection].
  destruct (ObjectId (productId item)); [| congruence].
  destruct (find _ (products_collection db)) as [p |] eqn:Hp; [| congruence].
  now rewrite (find_app_found _ _ _ _ Hp).
Qed.

(** On a store where every line item resolves, a new product changes no
    listing of orders. *)
Theorem create_product_leaves_order_listings (now : datetime) (new_id : oid)
  (product : ProductCreate) (db : Database) (user_id : string) (lim off : Z)
  (Hresolve : orders_resolve db) :
  fst (get_user_orders user_id lim off
         (snd (create_product now new_id product db)))
  = fst (get_user_orders user_id lim off db).
Proof.
  rewrite create_product_run.
  destruct (forallb _ _); cbn [snd]; [| reflexivity].
  rewrite !get_user_orders_outcome. cbn [fst].
  unfold page_of, orders_of; cbn [orders_collection].
  destruct (first_malformed _); [reflexivity |].
  f_equal. f_equal. apply map_ext_in. intros doc Hdoc.
  apply in_window, filter_In in Hdoc as [Hdoc _].
  unfold orders_resolve in Hresolve.
  rewrite Forall_forall in Hresolve. specialize (Hresolve doc Hdoc).
  unfold spec_order_data.
  now rewrite (spec_resolvable_more_products db _ (orders_collection db)
                 (o_items doc) Hresolve).
Qed.

End Composition.

(** * The connection to the store *)

Lemma startup_consistent (url : string) (s : Connection.server) :
  Connection.consistent (Connection.startup url s).
Proof.
  destruct s; cbn; [right; eexists; reflexivity | now left].
Qed.

Lemma serve_consistent (url : string) (g : Connection.globals)
  (r : Connection.request) :
  Connection.consistent g -> Connection.consistent (Connection.serve url g r).
Proof.
  intros [-> | [c ->]]; destruct r as [s | s_connect s_ping]; cbn.
  - destruct s; cbn; [right; eexists; reflexivity | now left].
  - destruct s_connect, s_ping; cbn;
      solve [right; eexists; reflexivity | now left].
  - right. now exists c.
  - destruct s_ping; cbn; right; now exists c.
Qed.

(** From the start of the process on and whatever the requests and the
    states of the server, the four module variables are set together; so a
    handler that gets past [ensure_db_connection] finds both collections
    set, and one that does not is answered 503 with the variables as they
    were. *)
Theorem connection_variables_consistent (url : string)
  (at_start : Connection.server) (requests : list Connection.request)
  (now : Connection.server) :
  let g := fold_left (Connection.serve url) requests
             (Connection.startup url at_start) in
  Connection.consistent g
  /\ match Connection.ensure_db_connection url now g with
     | (None, g') =>
         Connection.products_collection g' <> None
         /\ Connection.orders_collection g' <> None
         /\ Connection.db g' <> None /\ Connection.client g' <> None
     | (Some e, g') => Connection.status_code e = 503 /\ g' = g
     end.
Proof.
  intro g.
  assert (Hg : Connection.consistent g).
  { subst g. generalize (startup_consistent url at_start).
    generalize (Connection.startup url at_start).
    induction requests as [| r requests IH]; intros g0 Hg0; cbn;
      [exact Hg0 |].
    apply IH. now apply serve_consistent. }
  split; [exact Hg |].
  destruct Hg as [-> | [c ->]]; cbn.
  - destruct now; cbn; repeat split; discriminate.
  - repeat split; discriminate.
Qed.

(** A process started while the server was down answers 503, naming the
    configured address, to every request made while the server stays down,
    and connects at the first request that finds the server up, ending in
    the state of a process started with the server up; once connected,
    [ensure_db_connection] does nothing, whatever has become of the server.
    The address is the environment variable, or the local default when the
    variable is unset or empty. *)
Theorem connection_is_retried (getenv : option string)
  (e e' : Connection.pymongo_error) (later : Connection.server) :
  let url := Connection.MONGODB_URL getenv in
  let down := Connection.startup url (Connection.fails e) in
  let up := Connection.startup url Connection.answers in
  Connection.ensure_db_connection url (Connection.fails e') down
  = (Some {| Connection.status_code := 503;
             Connection.detail := Connection.please_ensure_running_at url |},
     down)
  /\ Connection.ensure_db_connection url Connection.answers down = (None, up)
  /\ Connection.ensure_db_connection url later up = (None, up)
  /\ url <> ""
  /\ (truthy getenv = None -> url = "mongodb://localhost:27017").
Proof.
  cbn. repeat split.
  - unfold Connection.MONGODB_URL.
    destruct getenv as [[| c u] |]; cbn; discriminate.
  - unfold Connection.MONGODB_URL. now intros ->.
Qed.

(** [health_check] reports the service healthy exactly when the server
    answers its ping and a client exists or can be created; in every other
    case it answers 503, never another status.  A healthy answer leaves the
    process connected. *)
Theorem health_check_outcome (url : string)
  (s_connect s_ping : Connection.server) (g : Connection.globals) :
  (fst (Connection.health_check url s_connect s_ping g)
   = Connection.healthy_connected
   <-> (Connection.client g <> None \/ s_connect = Connection.answers)
       /\ s_ping = Connection.answers)
  /\ match Connection.health_check url s_connect s_ping g with
     | (Connection.healthy_connected, g') => Connection.client g' <> None
     | (Connection.unavailable e, _) => Connection.status_code e = 503
     end.
Proof.
  destruct g as [d c ps os].
  unfold Connection.health_check, Connection.ensure_db_connection;
    cbn [Connection.client Connection.db].
  destruct c as [c |]; cbn [Connection.is_None].
  - destruct s_ping as [| e]; cbn; split; try discriminate; try reflexivity.
    + split; [intros _ | reflexivity].
      split; [left; discriminate | reflexivity].
    + split; [discriminate | intros [_ H]; discriminate H].
  - rewrite orb_true_r.
    destruct s_connect as [| e]; cbn.
    + destruct s_ping as [| e']; cbn; split; try discriminate;
        try reflexivity.
      * split; [intros _ | reflexivity].
        split; [now right | reflexivity].
      * split; [discriminate | intros [_ H]; discriminate H].
    + split; [| reflexivity].
      split; [discriminate |].
      intros [[H | H] _]; [now elim H | discriminate H].
Qed.

(** * [serialize_doc] *)

Section SerializeDocProperties.

Context {value : Type}.
Variable str : value -> value.

Lemma dict_set_keys (key : string) (v : value) (d : dict) :
  dict_get key d <> None -> map fst (dict_set key v d) = map fst d.
Proof.
  induction d as [| [k w] d IH]; cbn; [congruence |].
  destruct (String.eqb k key); cbn; [reflexivity |].
  intro H. now rewrite IH.
Qed.

Lemma dict_get_set (key : string) (v : value) (d : dict) :
  dict_get key (dict_set key v d) = Some v.
Proof.
  induction d as [| [k w] d IH]; cbn.
  - now rewrite String.eqb_refl.
  - destruct (String.eqb k key) eqn:E; cbn; now rewrite E.
Qed.

Lemma dict_get_set_other (key other : string) (v : value) (d : dict) :
  dict_get key d <> None -> other <> key ->
  dict_get other (dict_set key v d) = dict_get other d.
Proof.
  intros Hkey Hother.
  induction d as [| [k w] d IH]; cbn in *; [congruence |].
  destruct (String.eqb k key) eqn:E; cbn.
  - apply String.eqb_eq in E. subst k.
    destruct (String.eqb_spec key other); [congruence | reflexivity].
  - destruct (String.eqb k other); [reflexivity | now apply IH].
Qed.

Lemma dict_set_set (key : string) (v w : value) (d : dict) :
  dict_set key w (dict_set key v d) = dict_set key w d.
Proof.
  induction d as [| [k u] d IH]; cbn.
  - now rewrite String.eqb_refl.
  - destruct (String.eqb k key) eqn:E; cbn; rewrite E; [reflexivity |].
    now rewrite IH.
Qed.

(** On a document that has an ["_id"], [serialize_doc] returns the
    document itself, changed in place: the same keys in the same order,
    ["_id"] holding the string of its former value, every other key its
    value. *)
Theorem serialize_doc_replaces_id (d : dict) (v : value)
  (Hid : dict_get "_id" d = Some v) :
  exists d',
    serialize_doc str (Some d) = (returns (Some d'), Some d')
    /\ map fst d' = map fst d
    /\ dict_get "_id" d' = Some (str v)
    /\ forall key, key <> "_id" -> dict_get key d' = dict_get key d.
Proof.
  exists (dict_set "_id" (str v) d).
  assert (Hsome : dict_get "_id" d <> None) by congruence.
  split; [| split; [now apply dict_set_keys | split]].
  - unfold serialize_doc. destruct d as [| kv d]; [discriminate |].
    now rewrite Hid.
  - apply dict_get_set.
  - intros key Hkey. now apply dict_get_set_other.
Qed.

(** Without an ["_id"] nothing is changed: [None] and the empty document
    give [None], any other document raises [KeyError]. *)
Theorem serialize_doc_without_id (d : dict) (Hid : dict_get "_id" d = None) :
  serialize_doc str None = (returns None, None)
  /\ serialize_doc str (Some d)
     = (match d with
        | [] => returns None
        | _ :: _ => KeyError "_id"
        end, Some d).
Proof.
  split; [reflexivity |]. unfold serialize_doc.
  destruct d as [| kv d]; [reflexivity | now rewrite Hid].
Qed.

(** As the string of a string is that string, serializing a document a
    second time yields what the first time yielded and changes nothing
    more. *)
Theorem serialize_doc_idempotent (doc : option dict)
  (Hstr : forall v, str (str v) = str v) :
  serialize_doc str (snd (serialize_doc str doc)) = serialize_doc str doc.
Proof.
  destruct doc as [[| kv d] |]; try reflexivity.
  unfold serialize_doc.
  destruct (dict_get "_id" (kv :: d)) as [v |] eqn:Hid; cbn [snd].
  - destruct (dict_set "_id" (str v) (kv :: d)) as [| kv' d'] eqn:Hset.
    + destruct kv as [k w]. cbn in Hset.
      destruct (String.eqb k "_id"); discriminate.
    + rewrite <- Hset, dict_get_set, dict_set_set, Hstr. reflexivity.
  - now rewrite Hid.
Qed.

End SerializeDocProperties.

(** * The properties on the shop *)

#[local] Existing Instance amounts.

Example ObjectId_of_shirt_hex : ObjectId shirt_hex = Ok shirt_id.
Proof. reflexivity. Qed.

Example ObjectId_case : ObjectId "0123456789ABCDEF01234567"
                        = ObjectId "0123456789abcdef01234567".
Proof. reflexivity. Qed.

Example ObjectId_too_short : ObjectId "xyz" = Raise (InvalidId "xyz").
Proof. reflexivity. Qed.

Example str_oid_shirt : str_oid shirt_id = shirt_hex.
Proof. reflexivity. Qed.

Example str_int_110 : str_int 110 = "110".
Proof. reflexivity. Qed.

Example pagination_middle :
  pagination 20 10 35 = {| next := Some "30"; limit := 10; previous := Some 10 |}.
Proof. reflexivity. Qed.

Example pagination_short_step_back :
  pagination 5 10 12 = {| next := None; limit := 10; previous := Some 0 |}.
Proof. reflexivity. Qed.

Example list_shirt_by_name :
  fst (list_products (Some "shirt") None 10 0 shop)
  = Ok {| pl_data := [ {| pr_id := shirt_hex; pr_name := "Shirt";
                          pr_price := 1999 |} ];
          pl_page := {| next := None; limit := 10; previous := None |} |}.
Proof. reflexivity. Qed.

Example list_size_M_excludes_shirt :
  fst (list_products None (Some "M") 10 0 shop)
  = Ok {| pl_data := [];
          pl_page := {| next := None; limit := 10; previous := None |} |}.
Proof. reflexivity. Qed.

Example listing_after_price_change :
  fst (get_user_orders "u" 10 0 (with_order shop))
  = Ok {| ol_data :=
            [ {| od_id := "6f6f6f6f6f6f6f6f6f6f6f6f";
                 od_items :=
                   [ {| productDetails :=
                          {| pd_name := "Shirt"; pd_id := shirt_hex |};
                        od_qty := 3 |} ];
                 total := 5997 |} ];
          ol_page := {| next := None; limit := 10; previous := None |} |}
  /\ fst (get_user_orders "u" 10 0 (with_order shop_sale))
     = Ok {| ol_data :=
               [ {| od_id := "6f6f6f6f6f6f6f6f6f6f6f6f";
                    od_items :=
                      [ {| productDetails :=
                             {| pd_name := "Shirt"; pd_id := shirt_hex |};
                           od_qty := 3 |} ];
                    total := 4500 |} ];
             ol_page := {| next := None; limit := 10; previous := None |} |}.
Proof. split; reflexivity. Qed.

Lemma shop_unique_ids : unique_product_ids shop.
Proof. unfold unique_product_ids; cbn. repeat constructor. intros []. Qed.

Lemma with_order_well_formed (db : Database) : orders_well_formed (with_order db).
Proof.
  unfold orders_well_formed; cbn.
  repeat constructor; eexists; reflexivity.
Qed.

(** Pagination of the second page of 35 documents, ten a page. *)
Lemma pagination_helper_witness :
  (1 <= 10 <= 100 /\ 0 <= 10 /\ 0 <= 35)
  /\ next (pagination 10 10 35) = Some "20"
  /\ previous (pagination 10 10 35) = Some 0
  /\ limit (pagination 10 10 35) = 10.
Proof.
  split; [lia |].
  destruct (pagination_helper 10 10 35) as [Hnext [_ [_ [Hprev Hlimit]]]];
    try lia.
  split; [apply Hnext; lia | split; [apply Hprev; lia | exact Hlimit]].
Defined.

(** An order without items in the shop. *)
Lemma create_order_empty_items_witness :
  items (order_of []) = []
  /\ create_order 7 order_id (order_of []) shop
     = (Ok {| id := "6f6f6f6f6f6f6f6f6f6f6f6f" |},
        {| products_collection := [shirt];
           orders_collection :=
             [ {| o_id := order_id; o_userId := "u"; o_items := [];
                  o_created_at := 7; o_status := "created" |} ] |}).
Proof.
  split; [reflexivity |].
  exact (create_order_empty_items 7 order_id (order_of []) shop eq_refl).
Defined.

(** Three shirts ordered in the shop. *)
Lemma create_order_inserted_document_witness :
  create_order 7 order_id three_shirts shop
  = (Ok {| id := "6f6f6f6f6f6f6f6f6f6f6f6f" |},
     {| products_collection := [shirt];
        orders_collection :=
          [ {| o_id := order_id; o_userId := "u";
               o_items := [ {| productId := shirt_hex; qty := 3 |} ];
               o_created_at := 7; o_status := "created" |} ] |})
  /\ exists doc,
      [ {| o_id := order_id; o_userId := "u";
           o_items := [ {| productId := shirt_hex; qty := 3 |} ];
           o_created_at := 7; o_status := "created" |} ] = [] ++ [doc]
      /\ o_status doc = "created"
      /\ o_created_at doc = 7
      /\ o_userId doc = "u"
      /\ map (fun item => (productId item, qty item)) (o_items doc)
         = [(shirt_hex, 3)].
Proof.
  split; [reflexivity |].
  destruct (create_order_inserted_document 7 order_id three_shirts shop _ _
              eq_refl)
    as [doc [Horders [_ [Hstatus [Htime [Huser [Hitems _]]]]]]].
  exists doc. repeat split; assumption.
Defined.

(** C1 at the failing input: the shirt exists and is ordered on two lines. *)
Lemma create_order_duplicate_rejected_witness :
  (unique_product_ids shop
   /\ comprehension (fun item => ObjectId (productId item)) (items shirt_twice)
      = Ok [shirt_id; shirt_id]
   /\ ~ NoDup (map productId (items shirt_twice)))
  /\ create_order 7 order_id shirt_twice shop
     = (Raise (HTTPException 400 (Text "One or more products not found")), shop).
Proof.
  assert (Hdup : ~ NoDup (map productId (items shirt_twice))).
  { intro Hn. apply NoDup_cons_iff in Hn as [Hn _]. apply Hn. now left. }
  split; [split; [exact shop_unique_ids | split; [reflexivity | exact Hdup]] |].
  exact (create_order_duplicate_rejected 7 order_id shirt_twice shop
           [shirt_id; shirt_id] shop_unique_ids eq_refl Hdup).
Defined.

(** C2 as stated fails: a malformed productId is answered with status 500,
    not 400. *)
Lemma create_order_malformed_id_counterexample :
  ObjectId "xyz" = Raise (InvalidId "xyz")
  /\ fst (create_order 7 order_id malformed_only shop)
     = Raise (HTTPException 500 (Str (InvalidId "xyz")))
  /\ ~ exists d,
        fst (create_order 7 order_id malformed_only shop)
        = Raise (HTTPException 400 d).
Proof.
  split; [reflexivity | split; [reflexivity |]].
  intros [d Hd]. discriminate Hd.
Defined.

Lemma create_order_malformed_id_witness :
  (exists item,
      In item (items hat_and_malformed)
      /\ forall i, ObjectId (productId item) <> Ok i)
  /\ exists before item after,
      items hat_and_malformed = before ++ item :: after
      /\ first_malformed (items hat_and_malformed) = Some (productId item)
      /\ create_order 7 order_id hat_and_malformed shop
         = (Raise (HTTPException 500 (Str (InvalidId (productId item)))), shop).
Proof.
  assert (Hbad : exists item,
             In item (items hat_and_malformed)
             /\ forall i, ObjectId (productId item) <> Ok i).
  { exists {| productId := "bad"; qty := 1 |}.
    split; [right; now left | intros i Hi; discriminate Hi]. }
  split; [exact Hbad |].
  destruct (create_order_malformed_id 7 order_id hat_and_malformed Hbad)
    as [before [item [after [Hsplit [_ [_ [Hfirst Hrun]]]]]]].
  exists before, item, after.
  split; [exact Hsplit | split; [exact Hfirst | exact (Hrun shop)]].
Defined.

(** C4 as stated fails: the hat is well-formed and unknown, but the request
    also carries a malformed id and is answered with status 500. *)
Lemma create_order_unknown_product_counterexample :
  (ObjectId hat_hex = Ok hat_id
   /\ In hat_hex (map productId (items hat_and_malformed))
   /\ ~ In hat_id (map p_id (products_collection shop)))
  /\ fst (create_order 7 order_id hat_and_malformed shop)
     = Raise (HTTPException 500 (Str (InvalidId "bad")))
  /\ ~ exists d,
        fst (create_order 7 order_id hat_and_malformed shop)
        = Raise (HTTPException 400 d).
Proof.
  split; [split; [reflexivity | split; [now left |]] |].
  - cbn. intros [E | []]. discriminate E.
  - split; [reflexivity | intros [d E]; discriminate E].
Defined.

(** Shirts and hats ordered in the shop, which has no hat. *)
Lemma create_order_unknown_product_witness :
  (unique_product_ids shop
   /\ comprehension (fun item => ObjectId (productId item))
        (items shirts_and_hats) = Ok [shirt_id; hat_id]
   /\ In hat_id [shirt_id; hat_id]
   /\ ~ In hat_id (map p_id (products_collection shop)))
  /\ create_order 7 order_id shirts_and_hats shop
     = (Raise (HTTPException 400 (Text "One or more products not found")), shop).
Proof.
  assert (Hmissing : ~ In hat_id (map p_id (products_collection shop))).
  { cbn. intros [E | []]. discriminate E. }
  assert (Hin : In hat_id [shirt_id; hat_id]) by (right; now left).
  split;
    [split; [exact shop_unique_ids
            | split; [reflexivity | split; [exact Hin | exact Hmissing]]] |].
  exact (create_order_unknown_product 7 order_id shirts_and_hats shop
           [shirt_id; hat_id] hat_id shop_unique_ids eq_refl Hin Hmissing).
Defined.

(** The order of shirts and hats listed in the shop, where no hat is sold:
    the hats are left out and the total is that of the shirts. *)
Lemma get_user_orders_totals_witness :
  (1 <= 10 <= 100 /\ 0 <= 0 /\ orders_well_formed (with_order shop))
  /\ exists r,
      get_user_orders "u" 10 0 (with_order shop) = (Ok r, with_order shop)
      /\ ol_data r
         = [ {| od_id := "6f6f6f6f6f6f6f6f6f6f6f6f";
                od_items :=
                  [ {| productDetails :=
                         {| pd_name := "Shirt"; pd_id := shirt_hex |};
                       od_qty := 3 |} ];
                total := 5997 |} ].
Proof.
  assert (Hl : 1 <= 10 <= 100) by lia.
  assert (Ho : 0 <= 0) by lia.
  split;
    [split; [exact Hl | split; [exact Ho | exact (with_order_well_formed shop)]] |].
  destruct (get_user_orders_totals "u" 10 0 (with_order shop) Hl Ho
              (with_order_well_formed shop)) as [r [Hrun [Hdata _]]].
  exists r. split; [exact Hrun |]. rewrite Hdata. reflexivity.
Defined.

(** The shirt listed under the name filter "shirt", which selects it
    because "Shirt" contains "shirt" when case is ignored, and a second
    product named "Shirt" listed after it once created. *)
Lemma list_products_projection_witness :
  (1 <= 10 <= 100 /\ 0 <= 0
   /\ filter_matcher (filter_query (Some "shirt") None)
      = Ok (fun d : product_doc => search true "shirt" (p_name d) && true))
  /\ (exists r,
        list_products (Some "shirt") None 10 0 shop = (Ok r, shop)
        /\ pl_data r
           = [ {| pr_id := shirt_hex; pr_name := "Shirt"; pr_price := 1999 |} ])
  /\ (occurs_ignoring_case "shirt" (p_name shirt)
      /\ ~ occurs_ignoring_case "hat" (p_name shirt))
  /\ exists r,
      fst (list_products (Some "shirt") None 10 0
             (snd (create_product 3 hat_id
                     {| pc_name := "Shirt"; pc_price := 2500;
                        pc_sizes := [ {| size := "M"; quantity := 5 |} ] |}
                     shop)))
      = Ok r
      /\ In {| pr_id := hat_hex; pr_name := "Shirt"; pr_price := 2500 |}
           (pl_data r).
Proof.
  assert (Hl : 1 <= 10 <= 100) by lia.
  assert (Ho : 0 <= 0) by lia.
  split; [split; [exact Hl | split; [exact Ho | reflexivity]] |].
  destruct (list_products_projection (Some "shirt") None 10 0 shop
              (fun d : product_doc => search true "shirt" (p_name d) && true)
              Hl Ho eq_refl) as [[r [Hrun [Hdata _]]] [Hselects Hround]].
  split; [| split].
  - exists r. split; [exact Hrun |]. rewrite Hdata. reflexivity.
  - split.
    + exact (proj1 (proj1 (Hselects eq_refl shirt) eq_refl)).
    + intro Hhat.
      assert (Hm : search true "hat" (p_name shirt) = true)
        by now apply search_occurs.
      discriminate Hm.
  - destruct (Hround 3 hat_id 2500 [ {| size := "M"; quantity := 5 |} ]
                {| id := str_oid hat_id |} _
                (fun d : product_doc => search true "shirt" (p_name d))
                (fun d => search_occurs "shirt" (p_name d)) eq_refl)
      as [r' [Hrun' Hin]].
    + cbn. lia.
    + exists r'. split; [exact (f_equal fst Hrun') | exact Hin].
Defined.

(** C7 as stated fails: with the empty string as size argument no filter
    is applied, and the shirt, which has no entry of that size, is listed. *)
Lemma list_products_size_filter_counterexample :
  exists r,
    list_products None (Some "") 10 0 shop = (Ok r, shop)
    /\ ~ exists docs,
          pl_data r = map product_data docs
          /\ forall d, In d docs ->
               In d (products_collection shop)
               /\ exists e, In e (p_sizes d) /\ size e = "".
Proof.
  eexists. split; [reflexivity |].
  intros [docs [Hdata Hall]]. cbn in Hdata.
  destruct docs as [| d docs]; [discriminate Hdata |].
  destruct (Hall d (or_introl eq_refl)) as [Hin [e [He Hsize]]].
  destruct Hin as [<- | []].
  destruct He as [<- | []]. discriminate Hsize.
Defined.

(** The shirt listed under its size S. *)
Lemma list_products_size_filter_witness :
  ("S" <> ""
   /\ list_products None (Some "S") 10 0 shop
      = (Ok {| pl_data := [product_data shirt];
               pl_page := pagination 0 10 1 |}, shop))
  /\ exists docs,
      [product_data shirt] = map product_data docs
      /\ forall d, In d docs -> exists e, In e (p_sizes d) /\ size e = "S".
Proof.
  assert (Hs : "S" <> "") by discriminate.
  split; [split; [exact Hs | reflexivity] |].
  destruct (list_products_size_filter None "S" 10 0 shop shop _ Hs eq_refl)
    as [docs [Hdata [Hall _]]].
  exists docs. split; [exact Hdata |].
  intros d Hd. now destruct (Hall d Hd).
Defined.

(** ** Further properties on the shop *)

Lemma shop_reachable : reachable shop.
Proof.
  change shop with (snd (create_product 1 shirt_id shirt_request empty_store)).
  apply reachable_create_product;
    [apply reachable_empty | reflexivity | intros []].
Qed.

Lemma shop_after_order_reachable : reachable shop_after_order.
Proof.
  change shop_after_order
    with (snd (create_order 7 order_id three_shirts shop)).
  apply reachable_create_order. exact shop_reachable.
Qed.

Lemma shop_well_formed : orders_well_formed shop.
Proof. constructor. Qed.

(** Three shirts are accepted; 2^63 shirts are not. *)
Lemma create_order_accepts_iff_witness :
  unique_product_ids shop
  /\ (exists r db', create_order 7 order_id three_shirts shop = (Ok r, db'))
  /\ ~ (exists r db', create_order 7 order_id too_many_shirts shop = (Ok r, db')).
Proof.
  split; [exact shop_unique_ids | split].
  - apply (create_order_accepts_iff 7 order_id three_shirts shop shop_unique_ids).
    split.
    + exists [shirt_id]. split; [reflexivity |].
      split; [repeat constructor; intros [] | intros i [<- | []]; now left].
    + repeat constructor; unfold storable; cbn; lia.
  - intro Haccepted.
    apply (create_order_accepts_iff 7 order_id too_many_shirts shop
             shop_unique_ids) in Haccepted as [_ Hfit].
    apply Forall_inv in Hfit. unfold storable in Hfit. cbn in Hfit. lia.
Defined.

Lemma created_product_can_be_ordered_witness :
  (String.length (binary hat_id) = 12%nat
   /\ unique_product_ids shop
   /\ ~ In hat_id (map p_id (products_collection shop))
   /\ Forall (fun s => storable (quantity s)) (pc_sizes hat_request)
   /\ storable 2)
  /\ exists r db1 db2,
      create_product 3 hat_id hat_request shop = (Ok r, db1)
      /\ create_order 7 order_id
           {| userId := "u"; items := [ {| productId := id r; qty := 2 |} ] |}
           db1
         = (Ok {| id := str_oid order_id |}, db2)
      /\ orders_collection db2
         = orders_collection shop
           ++ [ {| o_id := order_id; o_userId := "u";
                   o_items := [ {| productId := str_oid hat_id; qty := 2 |} ];
                   o_created_at := 7; o_status := "created" |} ].
Proof.
  assert (Hfresh : ~ In hat_id (map p_id (products_collection shop))).
  { cbn. intros [E | []]. discriminate E. }
  assert (Hsizes : Forall (fun s => storable (quantity s)) (pc_sizes hat_request))
    by constructor.
  assert (Hordered : storable 2) by (unfold storable; lia).
  split;
    [split; [reflexivity
            | split; [exact shop_unique_ids
                     | split; [exact Hfresh
                              | split; [exact Hsizes | exact Hordered]]]] |].
  exact (created_product_can_be_ordered 3 7 hat_id order_id hat_request "u" 2
           shop eq_refl shop_unique_ids Hfresh Hsizes Hordered).
Defined.

(** A hat without sizes and at any price is inserted; a stock of 2^63
    shirts is refused. *)
Lemma create_product_appends_witness :
  (exists db1,
      create_product 3 hat_id hat_request shop
      = (Ok {| id := str_oid hat_id |}, db1)
      /\ orders_collection db1 = orders_collection shop)
  /\ create_product 3 hat_id oversized_request shop
     = (Raise (HTTPException 500 (Str OverflowError)), shop).
Proof.
  split.
  - destruct (proj1 (create_product_appends 3 hat_id hat_request shop None None))
      as [db1 [Hrun [Horders _]]]; [constructor |].
    exists db1. split; [exact Hrun | exact Horders].
  - apply (create_product_appends 3 hat_id oversized_request shop None None).
    intro Hfit. apply Forall_inv in Hfit. unfold storable in Hfit.
    cbn in Hfit. lia.
Defined.

Lemma get_user_orders_shows_own_orders_witness :
  get_user_orders "u" 10 0 shop_after_order
  = (Ok three_shirts_listed, shop_after_order)
  /\ forall shown, In shown (ol_data three_shirts_listed) ->
       exists doc,
         In doc (orders_collection shop_after_order)
         /\ o_userId doc = "u"
         /\ od_id shown = str_oid (o_id doc)
         /\ incl (shown_lines shown) (stored_lines (o_items doc))
         /\ (List.length (od_items shown) <= List.length (o_items doc))%nat.
Proof.
  split; [reflexivity |].
  exact (get_user_orders_shows_own_orders "u" 10 0 shop_after_order
           shop_after_order three_shirts_listed eq_refl).
Defined.

Lemma created_order_is_listed_witness :
  (create_order 7 order_id three_shirts shop
   = (Ok {| id := str_oid order_id |}, shop_after_order)
   /\ unique_product_ids shop /\ orders_well_formed shop /\ 1 <= 10
   /\ (0 <= 0 <= Z.of_nat (List.length (orders_of "u" shop))
       /\ Z.of_nat (List.length (orders_of "u" shop)) < 0 + 10))
  /\ exists resp shown,
      get_user_orders "u" 10 0 shop_after_order = (Ok resp, shop_after_order)
      /\ In shown (ol_data resp)
      /\ od_id shown = str_oid order_id
      /\ shown_lines shown = [(shirt_hex, 3)].
Proof.
  assert (Hl : 1 <= 10) by lia.
  assert (Hrank : 0 <= 0 <= Z.of_nat (List.length (orders_of "u" shop))
                  /\ Z.of_nat (List.length (orders_of "u" shop)) < 0 + 10)
    by (cbn; lia).
  split;
    [split; [reflexivity
            | split; [exact shop_unique_ids
                     | split; [exact shop_well_formed
                              | split; [exact Hl | exact Hrank]]]] |].
  exact (created_order_is_listed 7 order_id three_shirts shop shop_after_order
           {| id := str_oid order_id |} 10 0 eq_refl shop_unique_ids
           shop_well_formed Hl Hrank).
Defined.

Lemma reachable_invariants_witness :
  reachable shop_after_order
  /\ unique_product_ids shop_after_order
  /\ orders_well_formed shop_after_order
  /\ orders_resolve shop_after_order
  /\ Forall (fun doc => o_status doc = "created")
       (orders_collection shop_after_order).
Proof.
  split; [exact shop_after_order_reachable |].
  exact (reachable_invariants shop_after_order shop_after_order_reachable).
Defined.

Lemma reachable_listing_is_complete_witness :
  reachable shop_after_order
  /\ exists r,
      get_user_orders "u" 10 0 shop_after_order = (Ok r, shop_after_order)
      /\ Forall2 (fun shown doc =>
                    od_id shown = str_oid (o_id doc)
                    /\ shown_lines shown = stored_lines (o_items doc))
           (ol_data r) (page_of "u" 10 0 shop_after_order).
Proof.
  split; [exact shop_after_order_reachable |].
  exact (reachable_listing_is_complete shop_after_order "u" 10 0
           shop_after_order_reachable).
Defined.

Lemma list_products_page_size_witness :
  (list_products None None 10 0 shop = (Ok shirt_listed, shop)
   /\ 1 <= 10 /\ 0 <= 0)
  /\ Z.of_nat (List.length (pl_data shirt_listed)) = 1
  /\ next (pl_page shirt_listed) = None.
Proof.
  assert (Hl : 1 <= 10) by lia.
  assert (Ho : 0 <= 0) by lia.
  split; [split; [reflexivity | split; [exact Hl | exact Ho]] |].
  destruct (list_products_page_size None None 10 0 shop shop shirt_listed
              eq_refl Hl Ho) as [Hshown [Hnext _]].
  split; [exact Hshown |]. apply Hnext. cbn. lia.
Defined.

Lemma get_user_orders_page_size_witness :
  (get_user_orders "u" 10 0 shop_after_order
   = (Ok three_shirts_listed, shop_after_order)
   /\ 1 <= 10 /\ 0 <= 0)
  /\ Z.of_nat (List.length (ol_data three_shirts_listed)) = 1
  /\ next (ol_page three_shirts_listed) = None.
Proof.
  assert (Hl : 1 <= 10) by lia.
  assert (Ho : 0 <= 0) by lia.
  split; [split; [reflexivity | split; [exact Hl | exact Ho]] |].
  destruct (get_user_orders_page_size "u" 10 0 shop_after_order
              shop_after_order three_shirts_listed eq_refl Hl Ho)
    as [Hshown [Hnext _]].
  split; [exact Hshown |]. apply Hnext. cbn. lia.
Defined.

Lemma list_products_next_page_witness :
  (list_products None None 1 0 shop
   = (Ok {| pl_data := [product_data shirt]; pl_page := pagination 0 1 1 |},
      shop)
   /\ list_products None None 1 (0 + 1) shop
      = (Ok {| pl_data := []; pl_page := pagination 1 1 1 |}, shop)
   /\ 1 <= 1 /\ 0 <= 0)
  /\ [product_data shirt] ++ []
     = map product_data (window (1 + 1) 0 (matching None None shop))
  /\ previous (pagination 1 1 1) = Some 0.
Proof.
  assert (Hl : 1 <= 1) by lia.
  assert (Ho : 0 <= 0) by lia.
  split;
    [split; [reflexivity | split; [reflexivity | split; [exact Hl | exact Ho]]] |].
  destruct (list_products_next_page None None 1 0 shop shop shop
              {| pl_data := [product_data shirt]; pl_page := pagination 0 1 1 |}
              {| pl_data := []; pl_page := pagination 1 1 1 |}
              eq_refl eq_refl Hl Ho) as [Hdata [_ Hprevious]].
  split; [exact Hdata | exact Hprevious].
Defined.

Lemma list_products_rejected_pattern_witness :
  (truthy (Some "sh[irt") = Some "sh[irt" /\ mongo_regex "sh[irt" "i" = None)
  /\ list_products (Some "sh[irt") None 10 0 shop
     = (Raise (HTTPException 500 (Str (OperationFailure "sh[irt"))), shop).
Proof.
  split; [split; reflexivity |].
  exact (list_products_rejected_pattern (Some "sh[irt") None "sh[irt" 10 0 shop
           eq_refl eq_refl).
Defined.

Lemma route_list_products_bounds_witness :
  route_list_products (Some "shirt") None None None shop
  = (Ok shirt_listed, shop)
  /\ 1 <= limit (pl_page shirt_listed) <= 100
  /\ Z.of_nat (List.length (pl_data shirt_listed)) <= limit (pl_page shirt_listed).
Proof.
  split; [reflexivity |].
  destruct (route_list_products_bounds (Some "shirt") None None None shop shop
              shirt_listed eq_refl) as [Hlimit [Hshown _]].
  split; [exact Hlimit | exact Hshown].
Defined.

Lemma serialize_doc_replaces_id_witness :
  dict_get "_id" shirt_dict = Some (inl shirt_id)
  /\ exists d',
      serialize_doc str_id_or_text (Some shirt_dict) = (returns (Some d'), Some d')
      /\ map fst d' = ["_id"; "name"]
      /\ dict_get "_id" d' = Some (inr shirt_hex).
Proof.
  split; [reflexivity |].
  destruct (serialize_doc_replaces_id str_id_or_text shirt_dict (inl shirt_id)
              eq_refl) as [d' [Hrun [Hkeys [Hid _]]]].
  exists d'. split; [exact Hrun | split; [exact Hkeys | exact Hid]].
Defined.

Lemma serialize_doc_without_id_witness :
  dict_get "_id" nameless_dict = None
  /\ serialize_doc str_id_or_text None = (returns None, None)
  /\ serialize_doc str_id_or_text (Some nameless_dict)
     = (KeyError "_id", Some nameless_dict).
Proof.
  split; [reflexivity |].
  exact (serialize_doc_without_id str_id_or_text nameless_dict eq_refl).
Defined.

Lemma serialize_doc_idempotent_witness :
  (forall v, str_id_or_text (str_id_or_text v) = str_id_or_text v)
  /\ serialize_doc str_id_or_text
       (snd (serialize_doc str_id_or_text (Some shirt_dict)))
     = serialize_doc str_id_or_text (Some shirt_dict).
Proof.
  assert (Hstr : forall v, str_id_or_text (str_id_or_text v) = str_id_or_text v)
    by (intros [i | text]; reflexivity).
  split; [exact Hstr |].
  exact (serialize_doc_idempotent str_id_or_text (Some shirt_dict) Hstr).
Defined.

Lemma create_order_leaves_other_listings_witness :
  "v" <> userId three_shirts
  /\ fst (list_products None None 10 0
            (snd (create_order 7 order_id three_shirts shop)))
     = Ok shirt_listed
  /\ fst (get_user_orders "v" 10 0
            (snd (create_order 7 order_id three_shirts shop)))
     = fst (get_user_orders "v" 10 0 shop).
Proof.
  assert (Hother : "v" <> userId three_shirts) by discriminate.
  split; [exact Hother |].
  destruct (create_order_leaves_other_listings 7 order_id three_shirts shop
              None None "v" 10 0 Hother) as [Hproducts Horders].
  split; [rewrite Hproducts; reflexivity | exact Horders].
Defined.

Lemma create_product_leaves_order_listings_witness :
  orders_resolve shop_after_order
  /\ fst (get_user_orders "u" 10 0
            (snd (create_product 9 hat_id hat_request shop_after_order)))
     = Ok three_shirts_listed.
Proof.
  assert (Hresolve : orders_resolve shop_after_order).
  { repeat constructor. discriminate. }
  split; [exact Hresolve |].
  rewrite (create_product_leaves_order_listings 9 hat_id hat_request
             shop_after_order "u" 10 0 Hresolve).
  reflexivity.
Defined.
